(** * Flash-loan front end: the [Home] component of
    [src/components/section/index.tsx]

    A shallow embedding of the component's state and of the functions it
    declares ([addLog], [sanitizeErrorMessage], [connectWallet],
    [executeContracts], [startIntervalExecution], [stopExecution], [runOnce],
    [handleAccountsChanged], [handleChainChanged]), followed by the properties
    of the specification that concern them. *)

From Stdlib Require Import String Ascii List ZArith Bool Lia PeanoNat.
Import ListNotations.
Open Scope string_scope.

(** ** JavaScript strings

    A JavaScript string is held as the bytes of its UTF-8 encoding (a lone
    surrogate is encoded like any other code point), so every string the code
    can receive has a representation.  The texts the component searches for
    are ASCII, and an ASCII text occurs in the encoding exactly where it
    occurs in the string.  The line terminators of ECMAScript are LF, CR,
    U+2028 and U+2029; the last two are the byte sequences 226 128 168 and
    226 128 169. *)

Module JsString.

(** A line terminator starts [s]. *)
Definition isLineTerminator (s : string) : bool :=
  match s with
  | EmptyString => false
  | String c s' =>
      Ascii.eqb c "010"%char || Ascii.eqb c "013"%char
      || (Ascii.eqb c "226"%char
          && match s' with
             | String d (String e _) =>
                 Ascii.eqb d "128"%char
                 && (Ascii.eqb e "168"%char || Ascii.eqb e "169"%char)
             | _ => false
             end)
  end.

(** A line terminator occurs somewhere in [s]. *)
Fixpoint hasLineTerminator (s : string) : bool :=
  isLineTerminator s
  || match s with
     | EmptyString => false
     | String _ s' => hasLineTerminator s'
     end.

(** U+2028 LINE SEPARATOR and U+2029 PARAGRAPH SEPARATOR. *)
Definition lineSeparator : string :=
  String "226" (String "128" (String "168" EmptyString)).
Definition paragraphSeparator : string :=
  String "226" (String "128" (String "169" EmptyString)).

Fixpoint drop (n : nat) (s : string) : string :=
  match n, s with
  | O, _ => s
  | S _, EmptyString => EmptyString
  | S n', String _ s' => drop n' s'
  end.

(** [String.prototype.includes]. *)
Fixpoint includes (needle hay : string) {struct hay} : bool :=
  if String.prefix needle hay then true
  else match hay with
       | EmptyString => false
       | String _ hay' => includes needle hay'
       end.

(** The leftmost occurrence of [lit] in [s]: the text before it and the text
    after it. *)
Fixpoint search (lit s : string) {struct s} : option (string * string) :=
  if String.prefix lit s then Some (EmptyString, drop (String.length lit) s)
  else match s with
       | EmptyString => None
       | String c s' =>
           match search lit s' with
           | Some (before, after) => Some (String c before, after)
           | None => None
           end
       end.

(** What [.*] consumes: everything up to the first line terminator. *)
Fixpoint dotStar (s : string) : string :=
  match s with
  | EmptyString => EmptyString
  | String c s' => if isLineTerminator s then EmptyString else String c (dotStar s')
  end.

(** What is left of [s] after [.*]. *)
Fixpoint afterDotStar (s : string) : string :=
  match s with
  | EmptyString => EmptyString
  | String c s' => if isLineTerminator s then s else afterDotStar s'
  end.

(** A match of a regular expression made of the literal text [lit] followed
    by one capture group holding [.*]. *)
Record Match := {
  m_before : string;   (* the input before the match *)
  m_matched : string;  (* the matched text *)
  m_group1 : string;   (* the capture group *)
  m_after : string     (* the input after the match *)
}.

(** [RegExp.prototype.exec] for such an expression, without flags: the
    leftmost position where [lit] occurs, then the greedy [.*], which cannot
    fail. *)
Definition regexExec (lit s : string) : option Match :=
  match search lit s with
  | Some (before, rest) =>
      Some {| m_before := before;
              m_matched := lit ++ dotStar rest;
              m_group1 := dotStar rest;
              m_after := afterDotStar rest |}
  | None => None
  end.

(** [RegExp.prototype.test]. *)
Definition regexTest (lit s : string) : bool :=
  match regexExec lit s with Some _ => true | None => false end.

(** The replacement patterns of [String.prototype.replace] for an expression
    with one capture group: [$$], [$&] and [$1]; any other code unit stands
    for itself. *)
Fixpoint expand (template : string) (m : Match) : string :=
  match template with
  | EmptyString => EmptyString
  | String "$" (String "$" t) => String "$" (expand t m)
  | String "$" (String "&" t) => m_matched m ++ expand t m
  | String "$" (String "1" t) => m_group1 m ++ expand t m
  | String c t => String c (expand t m)
  end.

(** [String.prototype.replace] with such an expression (not global) and a
    replacement string: only the first match is replaced. *)
Definition replace (s lit template : string) : string :=
  match regexExec lit s with
  | Some m => m_before m ++ expand template m ++ m_after m
  | None => s
  end.

End JsString.

(** ** The error sanitizer (index.tsx, lines 46-60) *)

(** An entry of [patterns]: [regex] is the literal text in front of the
    capture group, which holds [.*] in all three entries. *)
Record Pattern := { regex : string; replace : string }.

Definition patterns : list Pattern :=
  [ {| regex := "MetaMask Tx Signature: "; replace := "$1" |};
    {| regex := "ethers-user-denied: "; replace := "Action cancelled" |};
    {| regex := "execution reverted: "; replace := "Transaction failed: $1" |} ].

(** The [for ... of] loop with its early [return]. *)
Fixpoint sanitizeLoop (ps : list Pattern) (message : string) : string :=
  match ps with
  | [] => "Transaction failed"
  | pattern :: ps' =>
      if JsString.regexTest (regex pattern) message
      then JsString.replace message (regex pattern) (replace pattern)
      else sanitizeLoop ps' message
  end.

Definition sanitizeErrorMessage (message : string) : string :=
  sanitizeLoop patterns message.

(** ** Values exchanged with the wallet and with the contracts *)

(** Modelled from the spec: [BSC_MAINNET_CONFIG] comes from [@/lib/bscConfig],
    which is not among the sources.  The component reads its [chainId] and
    hands the whole descriptor (chain id, name, RPC and explorer URLs) to the
    wallet; the descriptor itself is a parameter of [connectWallet]. *)
Record ChainConfig := {
  chainId : string;
  chainName : string;
  rpcUrls : list string;
  blockExplorerUrls : list string
}.

(** The signer returned by [BrowserProvider.getSigner], named by its account. *)
Definition Signer := string.

(** [new Contract(address, abi, signer)]; the abi is kept as the list of the
    function names it declares. *)
Record Contract := {
  target : string;
  abi : list string;
  runner : Signer
}.

Definition longTradeAddress := "0xe76aa7e39763e6fa260e13a24c6d76a8abf4305b".
Definition shortTradeAddress := "0x92158730bee648250e0a10e44fef3661b8d2e2b8".
Definition longTradeABI := ["DVMFlashLoanCall"; "initiateFlashLoan"].
Definition shortTradeABI := ["DVMFlashLoanCall"; "initiateFlashLoan"].

Record TxOptions := { gasPrice : Z; gasLimit : Z }.

(** [ethers.parseUnits(value, 'gwei')] for a whole number of gwei. *)
Definition parseUnits_gwei (value : Z) : Z := (value * 10 ^ 9)%Z.

(** The [code] of an error is a number for wallet errors and a string for the
    errors of the contract library. *)
Inductive JsCode :=
| CodeNumber (n : Z)
| CodeString (c : string).

(** The properties the component reads from a caught object; [None] is
    [undefined].  [err_info_error_message] is [err.info?.error?.message]. *)
Record JsError := {
  err_code : option JsCode;
  err_reason : option string;
  err_message : option string;
  err_info_error_message : option string
}.

(** A thrown value: an object, or a primitive (a string, a number, ...), on
    which every property reads as [undefined].  Rejections with [null] or
    [undefined] are left out: wallet and contract calls reject with error
    objects. *)
Inductive Thrown :=
| ThrownObject (e : JsError)
| ThrownPrimitive.

(** [new Error(msg)]. *)
Definition newError (msg : string) : Thrown :=
  ThrownObject {| err_code := None; err_reason := None;
                  err_message := Some msg; err_info_error_message := None |}.

(** How a promise settles. *)
Inductive Reply (A : Type) :=
| Resolved (a : A)
| Rejected (e : Thrown).
Arguments Resolved {A} a.
Arguments Rejected {A} e.

(** The requests [connectWallet] makes. *)
Inductive Request :=
| Eth_chainId
| Wallet_switchEthereumChain (id : string)
| Wallet_addEthereumChain (cfg : ChainConfig)
| Eth_requestAccounts
| GetSigner.

(** What the wallet answers to each request during one [connectWallet]; every
    request is made at most once there.  The account list may be a falsy value
    ([None]). *)
Record Wallet := {
  on_eth_chainId : Reply string;
  on_switchEthereumChain : Reply unit;
  on_addEthereumChain : Reply unit;
  on_requestAccounts : Reply (option (list string));
  on_getSigner : Reply Signer
}.

Inductive ToastKind := ToastError | ToastSuccess | ToastInfo | ToastPlain.
Definition Toast := (ToastKind * string)%type.

(** ** The state *)

(** The handle [setInterval] returns: an integer greater than zero, so a
    handle is always truthy. *)
Definition TimerId := positive.

(** An armed interval.  Its callback calls the [executeContracts] of the
    render in which [startIntervalExecution] ran, which closes over the two
    bindings of that render. *)
Record Timer := {
  timerId : TimerId;
  delay : Z;
  seenLong : option Contract;
  seenShort : option Contract
}.

(** The seven [useState] cells, then the world around the component. *)
Record State := {
  longTradeContract : option Contract;
  shortTradeContract : option Contract;
  isConnected : bool;
  isConnecting : bool;
  logs : list string;
  executionInterval : option TimerId;
  isRunning : bool;
  ethereum : bool;               (* [window.ethereum] is defined *)
  clock : string;                (* [new Date().toLocaleTimeString()] now *)
  timers : list Timer;           (* intervals armed and not cleared *)
  nextTimerId : TimerId;         (* the handle the next [setInterval] returns *)
  pendingRuns : nat;             (* runs of [executeContracts] at their [await] *)
  toasts : list Toast;           (* notifications shown, oldest first *)
  walletRequests : list Request; (* requests sent to the wallet, oldest first *)
  contractCalls : list (Contract * TxOptions)
                                 (* [initiateFlashLoan] calls, oldest first *)
}.

Definition initial (eth : bool) (now : string) : State :=
  {| longTradeContract := None; shortTradeContract := None;
     isConnected := false; isConnecting := false; logs := [];
     executionInterval := None; isRunning := false;
     ethereum := eth; clock := now; timers := []; nextTimerId := 1%positive;
     pendingRuns := 0; toasts := []; walletRequests := [];
     contractCalls := [] |}.

Definition set_longTradeContract (v : option Contract) (s : State) : State :=
  {| longTradeContract := v; shortTradeContract := shortTradeContract s;
     isConnected := isConnected s; isConnecting := isConnecting s;
     logs := logs s; executionInterval := executionInterval s;
     isRunning := isRunning s; ethereum := ethereum s; clock := clock s;
     timers := timers s; nextTimerId := nextTimerId s;
     pendingRuns := pendingRuns s; toasts := toasts s;
     walletRequests := walletRequests s; contractCalls := contractCalls s |}.

Definition set_shortTradeContract (v : option Contract) (s : State) : State :=
  {| longTradeContract := longTradeContract s; shortTradeContract := v;
     isConnected := isConnected s; isConnecting := isConnecting s;
     logs := logs s; executionInterval := executionInterval s;
     isRunning := isRunning s; ethereum := ethereum s; clock := clock s;
     timers := timers s; nextTimerId := nextTimerId s;
     pendingRuns := pendingRuns s; toasts := toasts s;
     walletRequests := walletRequests s; contractCalls := contractCalls s |}.

Definition set_isConnected (v : bool) (s : State) : State :=
  {| longTradeContract := longTradeContract s;
     shortTradeContract := shortTradeContract s; isConnected := v;
     isConnecting := isConnecting s; logs := logs s;
     executionInterval := executionInterval s; isRunning := isRunning s;
     ethereum := ethereum s; clock := clock s; timers := timers s;
     nextTimerId := nextTimerId s; pendingRuns := pendingRuns s;
     toasts := toasts s; walletRequests := walletRequests s;
     contractCalls := contractCalls s |}.

Definition set_isConnecting (v : bool) (s : State) : State :=
  {| longTradeContract := longTradeContract s;
     shortTradeContract := shortTradeContract s;
     isConnected := isConnected s; isConnecting := v; logs := logs s;
     executionInterval := executionInterval s; isRunning := isRunning s;
     ethereum := ethereum s; clock := clock s; timers := timers s;
     nextTimerId := nextTimerId s; pendingRuns := pendingRuns s;
     toasts := toasts s; walletRequests := walletRequests s;
     contractCalls := contractCalls s |}.

Definition set_logs (v : list string) (s : State) : State :=
  {| longTradeContract := longTradeContract s;
     shortTradeContract := shortTradeContract s;
     isConnected := isConnected s; isConnecting := isConnecting s; logs := v;
     executionInterval := executionInterval s; isRunning := isRunning s;
     ethereum := ethereum s; clock := clock s; timers := timers s;
     nextTimerId := nextTimerId s; pendingRuns := pendingRuns s;
     toasts := toasts s; walletRequests := walletRequests s;
     contractCalls := contractCalls s |}.

Definition set_executionInterval (v : option TimerId) (s : State) : State :=
  {| longTradeContract := longTradeContract s;
     shortTradeContract := shortTradeContract s;
     isConnected := isConnected s; isConnecting := isConnecting s;
     logs := logs s; executionInterval := v; isRunning := isRunning s;
     ethereum := ethereum s; clock := clock s; timers := timers s;
     nextTimerId := nextTimerId s; pendingRuns := pendingRuns s;
     toasts := toasts s; walletRequests := walletRequests s;
     contractCalls := contractCalls s |}.

Definition set_isRunning (v : bool) (s : State) : State :=
  {| longTradeContract := longTradeContract s;
     shortTradeContract := shortTradeContract s;
     isConnected := isConnected s; isConnecting := isConnecting s;
     logs := logs s; executionInterval := executionInterval s;
     isRunning := v; ethereum := ethereum s; clock := clock s;
     timers := timers s; nextTimerId := nextTimerId s;
     pendingRuns := pendingRuns s; toasts := toasts s;
     walletRequests := walletRequests s; contractCalls := contractCalls s |}.

Definition set_clock (v : string) (s : State) : State :=
  {| longTradeContract := longTradeContract s;
     shortTradeContract := shortTradeContract s;
     isConnected := isConnected s; isConnecting := isConnecting s;
     logs := logs s; executionInterval := executionInterval s;
     isRunning := isRunning s; ethereum := ethereum s; clock := v;
     timers := timers s; nextTimerId := nextTimerId s;
     pendingRuns := pendingRuns s; toasts := toasts s;
     walletRequests := walletRequests s; contractCalls := contractCalls s |}.

Definition set_timers (v : list Timer) (s : State) : State :=
  {| longTradeContract := longTradeContract s;
     shortTradeContract := shortTradeContract s;
     isConnected := isConnected s; isConnecting := isConnecting s;
     logs := logs s; executionInterval := executionInterval s;
     isRunning := isRunning s; ethereum := ethereum s; clock := clock s;
     timers := v; nextTimerId := nextTimerId s; pendingRuns := pendingRuns s;
     toasts := toasts s; walletRequests := walletRequests s;
     contractCalls := contractCalls s |}.

Definition set_nextTimerId (v : TimerId) (s : State) : State :=
  {| longTradeContract := longTradeContract s;
     shortTradeContract := shortTradeContract s;
     isConnected := isConnected s; isConnecting := isConnecting s;
     logs := logs s; executionInterval := executionInterval s;
     isRunning := isRunning s; ethereum := ethereum s; clock := clock s;
     timers := timers s; nextTimerId := v; pendingRuns := pendingRuns s;
     toasts := toasts s; walletRequests := walletRequests s;
     contractCalls := contractCalls s |}.

Definition set_pendingRuns (v : nat) (s : State) : State :=
  {| longTradeContract := longTradeContract s;
     shortTradeContract := shortTradeContract s;
     isConnected := isConnected s; isConnecting := isConnecting s;
     logs := logs s; executionInterval := executionInterval s;
     isRunning := isRunning s; ethereum := ethereum s; clock := clock s;
     timers := timers s; nextTimerId := nextTimerId s; pendingRuns := v;
     toasts := toasts s; walletRequests := walletRequests s;
     contractCalls := contractCalls s |}.

Definition set_toasts (v : list Toast) (s : State) : State :=
  {| longTradeContract := longTradeContract s;
     shortTradeContract := shortTradeContract s;
     isConnected := isConnected s; isConnecting := isConnecting s;
     logs := logs s; executionInterval := executionInterval s;
     isRunning := isRunning s; ethereum := ethereum s; clock := clock s;
     timers := timers s; nextTimerId := nextTimerId s;
     pendingRuns := pendingRuns s; toasts := v;
     walletRequests := walletRequests s; contractCalls := contractCalls s |}.

Definition set_walletRequests (v : list Request) (s : State) : State :=
  {| longTradeContract := longTradeContract s;
     shortTradeContract := shortTradeContract s;
     isConnected := isConnected s; isConnecting := isConnecting s;
     logs := logs s; executionInterval := executionInterval s;
     isRunning := isRunning s; ethereum := ethereum s; clock := clock s;
     timers := timers s; nextTimerId := nextTimerId s;
     pendingRuns := pendingRuns s; toasts := toasts s; walletRequests := v;
     contractCalls := contractCalls s |}.

Definition set_contractCalls (v : list (Contract * TxOptions)) (s : State) : State :=
  {| longTradeContract := longTradeContract s;
     shortTradeContract := shortTradeContract s;
     isConnected := isConnected s; isConnecting := isConnecting s;
     logs := logs s; executionInterval := executionInterval s;
     isRunning := isRunning s; ethereum := ethereum s; clock := clock s;
     timers := timers s; nextTimerId := nextTimerId s;
     pendingRuns := pendingRuns s; toasts := toasts s;
     walletRequests := walletRequests s; contractCalls := v |}.

(** ** Statements: state passing with exceptions *)

Inductive Completion (A : Type) :=
| Normal (a : A)
| Throws (e : Thrown).
Arguments Normal {A} a.
Arguments Throws {A} e.

Definition M (A : Type) := State -> Completion A * State.

Definition ret {A} (a : A) : M A := fun s => (Normal a, s).

Definition bind {A B} (m : M A) (k : A -> M B) : M B :=
  fun s => match m s with
           | (Normal a, s') => k a s'
           | (Throws e, s') => (Throws e, s')
           end.

Definition throw {A} (e : Thrown) : M A := fun s => (Throws e, s).

(** [try { body } catch (e) { handler }]. *)
Definition tryCatch {A} (body : M A) (handler : Thrown -> M A) : M A :=
  fun s => match body s with
           | (Normal a, s') => (Normal a, s')
           | (Throws e, s') => handler e s'
           end.

(** [try { body } finally { finalizer }]. *)
Definition tryFinally {A} (body : M A) (finalizer : M unit) : M A :=
  fun s => match body s with
           | (c, s') =>
               match finalizer s' with
               | (Normal _, s'') => (c, s'')
               | (Throws e, s'') => (Throws e, s'')
               end
           end.

Definition get : M State := fun s => (Normal s, s).
Definition modify (f : State -> State) : M unit := fun s => (Normal tt, f s).

(** The state a statement leaves. *)
Definition exec {A} (m : M A) (s : State) : State := snd (m s).

Declare Scope js_scope.
Delimit Scope js_scope with js.
Notation "x <- m ;; k" := (bind m (fun x => k))
  (at level 61, m at next level, right associativity) : js_scope.
Notation "m ;; k" := (bind m (fun _ => k))
  (at level 61, right associativity) : js_scope.
Open Scope js_scope.

(** [await] of a promise that settles as [r]. *)
Definition await {A} (r : Reply A) : M A :=
  match r with
  | Resolved a => ret a
  | Rejected e => throw e
  end.

(** *** State setters, the log, notifications and timers *)

Definition setLongTradeContract (v : option Contract) : M unit :=
  modify (set_longTradeContract v).
Definition setShortTradeContract (v : option Contract) : M unit :=
  modify (set_shortTradeContract v).
Definition setIsConnected (v : bool) : M unit := modify (set_isConnected v).
Definition setIsConnecting (v : bool) : M unit := modify (set_isConnecting v).
Definition setExecutionInterval (v : option TimerId) : M unit :=
  modify (set_executionInterval v).
Definition setIsRunning (v : bool) : M unit := modify (set_isRunning v).

(** Lines 40-43. *)
Definition addLog (message : string) : M unit :=
  modify (fun s => set_logs (logs s ++ [clock s ++ ": " ++ message]) s).

Definition toast (kind : ToastKind) (message : string) : M unit :=
  modify (fun s => set_toasts (toasts s ++ [(kind, message)]) s).

(** [window.ethereum.request] and [getSigner]: the request reaches the wallet,
    then the caller awaits the answer. *)
Definition request {A} (r : Request) (answer : Reply A) : M A :=
  modify (fun s => set_walletRequests (walletRequests s ++ [r]) s) ;;
  await answer.

(** [contract.initiateFlashLoan(txOptions)]: the call is made; its promise is
    awaited later. *)
Definition initiateFlashLoan (c : Contract) (txOptions : TxOptions) : M unit :=
  modify (fun s => set_contractCalls (contractCalls s ++ [(c, txOptions)]) s).

Definition setInterval (ms : Z) (long short : option Contract) : M TimerId :=
  fun s =>
    let id := nextTimerId s in
    (Normal id,
     set_nextTimerId (Pos.succ id)
       (set_timers (timers s ++ [ {| timerId := id; delay := ms;
                                     seenLong := long; seenShort := short |} ])
          s)).

Definition clearInterval (id : TimerId) : M unit :=
  modify (fun s =>
            set_timers
              (filter (fun t => negb (Pos.eqb (timerId t) id)) (timers s)) s).

(** *** Property tests on caught values *)

(** [err.code === n]. *)
Definition codeIs (n : Z) (err : JsError) : bool :=
  match err_code err with
  | Some (CodeNumber c) => Z.eqb c n
  | _ => false
  end.

(** [err.reason === r]. *)
Definition reasonIs (r : string) (err : JsError) : bool :=
  match err_reason err with
  | Some x => String.eqb x r
  | None => false
  end.

(** [err.message?.includes(text)], as a condition. *)
Definition messageIncludes (text : string) (err : JsError) : bool :=
  match err_message err with
  | Some m => JsString.includes text m
  | None => false
  end.

(** [err.message] inside a template literal. *)
Definition messageText (e : Thrown) : string :=
  match e with
  | ThrownObject {| err_message := Some m |} => m
  | _ => "undefined"
  end.

(** [(e as EthereumRpcError).code === n]. *)
Definition thrownCodeIs (n : Z) (e : Thrown) : bool :=
  match e with
  | ThrownObject err => codeIs n err
  | ThrownPrimitive => false
  end.

(** ** The functions of the component *)

(** *** [connectWallet] (lines 63-163)

    The function only writes to the state (setters and [addLog]); it reads
    nothing back between its [await]s, so its run is given in one piece
    against the answers of the wallet. *)

(** The message chosen in the [catch] block, lines 144-156. *)
Definition connectionErrorMessage (error : Thrown) : string :=
  match error with
  | ThrownObject err =>
      if codeIs 4001 err then "Connection rejected by user"
      else if messageIncludes "user rejected request" err
      then "Connection rejected by user"
      else if messageIncludes "already pending" err
      then "A request is already pending. Please check MetaMask."
      else "Error connecting wallet"
  | ThrownPrimitive => "Error connecting wallet"
  end.

Section Connect.

Variable BSC_MAINNET_CONFIG : ChainConfig.

(** Lines 78-107: the switch to the target chain. *)
Definition ensureNetwork (w : Wallet) (currentChainId : string) : M unit :=
  if negb (String.eqb currentChainId (chainId BSC_MAINNET_CONFIG)) then
    addLog "Switching to Binance Smart Chain..." ;;
    tryCatch
      (request (Wallet_switchEthereumChain (chainId BSC_MAINNET_CONFIG))
               (on_switchEthereumChain w) ;;
       addLog "Successfully switched to Binance Smart Chain")
      (fun switchError =>
         if thrownCodeIs 4902 switchError then
           addLog "Adding Binance Smart Chain to MetaMask..." ;;
           tryCatch
             (request (Wallet_addEthereumChain BSC_MAINNET_CONFIG)
                      (on_addEthereumChain w) ;;
              addLog "Successfully added Binance Smart Chain")
             (fun _ =>
                addLog "Failed to add Binance Smart Chain" ;;
                throw (newError "Failed to add Binance Smart Chain to MetaMask"))
         else
           addLog ("Chain switch error: " ++ messageText switchError) ;;
           throw switchError)
  else ret tt.

Definition connectWallet (w : Wallet) : M unit :=
  window <- get ;;
  if negb (ethereum window) then
    toast ToastError "MetaMask not detected. Please install MetaMask."
  else
    setIsConnecting true ;;
    addLog "Attempting to connect wallet..." ;;
    tryFinally
      (tryCatch
         (currentChainId <- request Eth_chainId (on_eth_chainId w) ;;
          addLog ("Current chain ID: " ++ currentChainId) ;;
          ensureNetwork w currentChainId ;;
          addLog "Requesting accounts..." ;;
          accounts <- request Eth_requestAccounts (on_requestAccounts w) ;;
          match accounts with
          | None | Some [] => throw (newError "No accounts found")
          | Some (account :: _) =>
              addLog ("Connected account: " ++ account) ;;
              web3Signer <- request GetSigner (on_getSigner w) ;;
              let longTrade :=
                {| target := longTradeAddress; abi := longTradeABI;
                   runner := web3Signer |} in
              let shortTrade :=
                {| target := shortTradeAddress; abi := shortTradeABI;
                   runner := web3Signer |} in
              setLongTradeContract (Some longTrade) ;;
              setShortTradeContract (Some shortTrade) ;;
              setIsConnected true ;;
              addLog "Wallet connected successfully" ;;
              toast ToastSuccess "Wallet connected to BSC successfully"
          end)
         (fun error =>
            let errorMessage := connectionErrorMessage error in
            addLog ("Connection error: " ++ errorMessage) ;;
            toast ToastError errorMessage))
      (setIsConnecting false).

End Connect.

(** *** [executeContracts] (lines 166-219)

    The function is [async]: [executeContracts long short] is its run up to
    [await Promise.all([tx1, tx2])], where it is suspended unless the guard
    returned; [executeContracts_resume] is the rest, from the moment the
    joined promise settles.  [long] and [short] are the bindings the function
    closes over, those of the render that created it. *)

Definition txOptions : TxOptions :=
  {| gasPrice := parseUnits_gwei 5; gasLimit := 500000 |}.

(** The run is now suspended at its [await]. *)
Definition suspend : M unit :=
  modify (fun s => set_pendingRuns (S (pendingRuns s)) s).

(** A suspended run is taken up again. *)
Definition resume : M unit :=
  modify (fun s => set_pendingRuns (pred (pendingRuns s)) s).

Definition executeContracts (long short : option Contract) : M unit :=
  match long, short with
  | Some longTrade, Some shortTrade =>
      setIsRunning true ;;
      addLog "Executing contracts..." ;;
      initiateFlashLoan longTrade txOptions ;;
      initiateFlashLoan shortTrade txOptions ;;
      suspend
  | _, _ =>
      toast ToastError "Contracts not initialized. Please connect wallet first." ;;
      addLog "Error: Contracts not initialized"
  end.

(** The message chosen in the [catch] block, lines 191-212.  An empty nested
    message is falsy and leaves the default. *)
Definition executionErrorMessage (error : Thrown) : string :=
  match error with
  | ThrownObject err =>
      if codeIs 4001 err || reasonIs "rejected" err
      then "You rejected the transaction"
      else if messageIncludes "user denied transaction" err
      then "You denied the transaction"
      else match err_info_error_message err with
           | Some EmptyString | None => "Transaction was rejected"
           | Some nested => sanitizeErrorMessage nested
           end
  | ThrownPrimitive => "Transaction was rejected"
  end.

Definition executeContracts_resume (settled : Reply unit) : M unit :=
  resume ;;
  tryFinally
    (tryCatch
       (await settled ;;
        addLog "Flash loans initiated successfully!" ;;
        toast ToastSuccess "Flash loans initiated successfully on BSC!")
       (fun error =>
          let userMessage := executionErrorMessage error in
          addLog ("Execution error: " ++ userMessage) ;;
          toast ToastError userMessage))
    (setIsRunning false).

(** *** The scheduler (lines 222-257)

    A handler runs in the render that is current when it is called, so the
    values it closes over are those of the state it starts from. *)

Definition startIntervalExecution : M unit :=
  render <- get ;;
  match executionInterval render with
  | Some handle => clearInterval handle
  | None => ret tt
  end ;;
  addLog "Starting interval execution (every 3 seconds)" ;;
  executeContracts (longTradeContract render) (shortTradeContract render) ;;
  interval <- setInterval 3000 (longTradeContract render)
                (shortTradeContract render) ;;
  setExecutionInterval (Some interval).

Definition stopExecution : M unit :=
  render <- get ;;
  match executionInterval render with
  | Some handle =>
      setIsRunning false ;;
      clearInterval handle ;;
      setExecutionInterval None ;;
      addLog "Execution stopped" ;;
      toast ToastPlain "Execution stopped"
  | None => ret tt
  end.

Definition runOnce : M unit :=
  render <- get ;;
  addLog "Executing contracts once" ;;
  toast ToastPlain "Executing contracts once" ;;
  executeContracts (longTradeContract render) (shortTradeContract render).

(** *** Wallet notifications (lines 260-286) *)

Definition handleAccountsChanged (accounts : list string) : M unit :=
  if Nat.eqb (List.length accounts) 0 then
    setIsConnected false ;;
    setLongTradeContract None ;;
    setShortTradeContract None ;;
    addLog "Wallet disconnected" ;;
    toast ToastInfo "Wallet disconnected"
  else ret tt.

(** [window.location.reload()]: the page starts again; its timers and its
    suspended runs are gone.  What the wallet and the contracts were sent
    stays sent. *)
Definition reload (s : State) : State :=
  set_walletRequests (walletRequests s)
    (set_contractCalls (contractCalls s)
       (set_nextTimerId (nextTimerId s) (initial (ethereum s) (clock s)))).

Definition handleChainChanged (id : string) : M unit :=
  addLog ("Chain changed to: " ++ id) ;;
  modify reload.

(** The effect of lines 260-286 registers both handlers after a render in
    which the wallet is present and [isConnected] holds, and removes them
    otherwise. *)
Definition listening (s : State) : bool := ethereum s && isConnected s.

(** The effect of lines 289-295, keyed on [executionInterval]: when a render
    changes the handle, the cleanup of the previous render clears the handle
    that render saw. *)
Definition handle_eqb (a b : option TimerId) : bool :=
  match a, b with
  | Some x, Some y => Pos.eqb x y
  | None, None => true
  | _, _ => false
  end.

Definition intervalCleanup (previous : State) : M unit :=
  now <- get ;;
  if handle_eqb (executionInterval previous) (executionInterval now) then ret tt
  else match executionInterval previous with
       | Some handle => clearInterval handle
       | None => ret tt
       end.

(** A handler called in state [s], then the render it causes. *)
Definition handle (handler : M unit) (s : State) : State :=
  exec (intervalCleanup s) (exec handler s).

(** ** What can happen to the component

    The operations the component exposes, and the events that reach it: a tick
    of an armed interval, the settling of a suspended run, the two wallet
    notifications and the passing of time.  The operations are taken as such,
    whatever buttons the page shows. *)

Inductive Op :=
| Connect (w : Wallet)
| Execute
| Start
| Stop
| RunOnce
| TimerFires (id : TimerId)
| RunSettles (settled : Reply unit)
| AccountsChanged (accounts : list string)
| ChainChanged (id : string)
| ClockShows (now : string).

Definition findTimer (id : TimerId) (s : State) : option Timer :=
  find (fun t => Pos.eqb (timerId t) id) (timers s).

Section Steps.

Variable BSC_MAINNET_CONFIG : ChainConfig.

(** [step op s] is [None] when [op] cannot happen in [s]: no such interval is
    armed, no run is suspended, or no handler is registered. *)
Definition step (op : Op) (s : State) : option State :=
  match op with
  | Connect w => Some (handle (connectWallet BSC_MAINNET_CONFIG w) s)
  | Execute =>
      Some (handle (executeContracts (longTradeContract s)
                      (shortTradeContract s)) s)
  | Start => Some (handle startIntervalExecution s)
  | Stop => Some (handle stopExecution s)
  | RunOnce => Some (handle runOnce s)
  | TimerFires id =>
      match findTimer id s with
      | Some t => Some (handle (executeContracts (seenLong t) (seenShort t)) s)
      | None => None
      end
  | RunSettles settled =>
      match pendingRuns s with
      | O => None
      | S _ => Some (handle (executeContracts_resume settled) s)
      end
  | AccountsChanged accounts =>
      if listening s then Some (handle (handleAccountsChanged accounts) s)
      else None
  | ChainChanged id =>
      if listening s then Some (exec (handleChainChanged id) s) else None
  | ClockShows now => Some (set_clock now s)
  end.

Fixpoint steps (ops : list Op) (s : State) : option State :=
  match ops with
  | [] => Some s
  | op :: ops' =>
      match step op s with
      | Some s' => steps ops' s'
      | None => None
      end
  end.

Inductive reachable : State -> Prop :=
| reachable_initial eth now : reachable (initial eth now)
| reachable_step s op s' :
    reachable s -> step op s = Some s' -> reachable s'.

End Steps.

(** The handles of the armed intervals. *)
Definition armed (s : State) : list TimerId := map timerId (timers s).

Definition handleList (h : option TimerId) : list TimerId :=
  match h with
  | Some id => [id]
  | None => []
  end.

(** A run of [executeContracts] is in progress. *)
Definition runInProgress (s : State) : Prop := 0 < pendingRuns s.

(** The interval [startIntervalExecution] arms when called in state [s]. *)
Definition newTimer (s : State) : Timer :=
  {| timerId := nextTimerId s; delay := 3000;
     seenLong := longTradeContract s; seenShort := shortTradeContract s |}.

(** ** Invariants and frames *)

(** What holds in every state the component can reach: the handle names the
    armed intervals, every armed interval has a handle that was given out,
    [isRunning] is set only while a run is suspended, and the wallet is
    present whenever the session is connected. *)
Record Inv (s : State) : Prop := {
  inv_armed : armed s = handleList (executionInterval s);
  inv_fresh : forall t, In t (timers s) -> (timerId t < nextTimerId s)%positive;
  inv_running : isRunning s = true -> runInProgress s;
  inv_listening : isConnected s = true -> ethereum s = true
}.

(** A statement keeps [R] when every run of it relates the state it starts
    from to the state it leaves. *)
Definition Keeps (R : State -> State -> Prop) {A} (m : M A) : Prop :=
  forall s, R s (exec m s).

(** The scheduler, the suspended runs, the contract calls and the presence of
    the wallet are the same in both states. *)
Definition sameScheduler (s s' : State) : Prop :=
  executionInterval s' = executionInterval s
  /\ isRunning s' = isRunning s
  /\ timers s' = timers s
  /\ nextTimerId s' = nextTimerId s
  /\ pendingRuns s' = pendingRuns s
  /\ contractCalls s' = contractCalls s
  /\ ethereum s' = ethereum s.

(** Events that start no run with the bindings of the current render and do
    not touch the scheduler: ticks of armed intervals, the clock, connection
    attempts and account notifications. *)
Definition background (op : Op) : bool :=
  match op with
  | TimerFires _ | ClockShows _ | Connect _ | AccountsChanged _ => true
  | _ => false
  end.

(** The state [start] leaves when called without bindings in a fresh page:
    the first interval is armed, with a callback that saw no binding, and
    nothing runs. *)
Definition idleTimer (s : State) : Prop :=
  executionInterval s = Some 1%positive
  /\ timers s = [ {| timerId := 1%positive; delay := 3000;
                     seenLong := None; seenShort := None |} ]
  /\ isRunning s = false
  /\ pendingRuns s = 0
  /\ contractCalls s = [].

(** The requests to add a chain among those sent to the wallet. *)
Definition isAddChain (r : Request) : bool :=
  match r with
  | Wallet_addEthereumChain _ => true
  | _ => false
  end.

Definition addChainRequests (s : State) : nat :=
  List.length (filter isAddChain (walletRequests s)).

(** The bindings [connectWallet] builds for a signer. *)
Definition longTradeFor (signer : Signer) : Contract :=
  {| target := longTradeAddress; abi := longTradeABI; runner := signer |}.
Definition shortTradeFor (signer : Signer) : Contract :=
  {| target := shortTradeAddress; abi := shortTradeABI; runner := signer |}.

(** ** Example data *)

Definition exampleConfig : ChainConfig :=
  {| chainId := "0x38"; chainName := "BNB Smart Chain";
     rpcUrls := ["https://rpc.example"];
     blockExplorerUrls := ["https://explorer.example"] |}.

(** A wallet already on the target chain that grants one account. *)
Definition grantingWallet : Wallet :=
  {| on_eth_chainId := Resolved "0x38";
     on_switchEthereumChain := Resolved tt;
     on_addEthereumChain := Resolved tt;
     on_requestAccounts := Resolved (Some ["0xA11CE"]);
     on_getSigner := Resolved "0xA11CE" |}.

Definition rpcError (n : Z) (msg : string) : Thrown :=
  ThrownObject {| err_code := Some (CodeNumber n); err_reason := None;
                  err_message := Some msg; err_info_error_message := None |}.

(** A wallet on another chain that does not know the target chain; the
    request to add it settles as [added]. *)
Definition unknownChainWallet (added : Reply unit) : Wallet :=
  {| on_eth_chainId := Resolved "0x1";
     on_switchEthereumChain := Rejected (rpcError 4902 "Unrecognized chain ID");
     on_addEthereumChain := added;
     on_requestAccounts := Resolved (Some ["0xA11CE"]);
     on_getSigner := Resolved "0xA11CE" |}.

(** A wallet on the target chain that grants no account. *)
Definition accountlessWallet : Wallet :=
  {| on_eth_chainId := Resolved "0x38";
     on_switchEthereumChain := Resolved tt;
     on_addEthereumChain := Resolved tt;
     on_requestAccounts := Resolved (Some []);
     on_getSigner := Resolved "0xA11CE" |}.

(** A wallet on another chain whose user declines the switch. *)
Definition decliningWallet : Wallet :=
  {| on_eth_chainId := Resolved "0x1";
     on_switchEthereumChain := Rejected (rpcError 4001 "User rejected the request.");
     on_addEthereumChain := Resolved tt;
     on_requestAccounts := Resolved (Some ["0xA11CE"]);
     on_getSigner := Resolved "0xA11CE" |}.

(** ** The page (lines 297-400) *)

(** The log panel shows a placeholder while the log is empty. *)
Inductive LogPanel :=
| NoLogsYet
| LogLines (lines : list string).

(** What the component renders: the connect button alone, or the three
    controls, the log panel and the two contract addresses. *)
Inductive View :=
| ConnectView (buttonDisabled : bool) (buttonLabel : string)
| ControlsView (startDisabled stopDisabled : bool) (panel : LogPanel)
    (longAddress shortAddress : string).

Definition render (s : State) : View :=
  if negb (isConnected s) then
    ConnectView (isConnecting s)
      (if isConnecting s then "Connecting..." else "Connect Wallet")
  else
    ControlsView (isRunning s) (negb (isRunning s))
      (if Nat.eqb (List.length (logs s)) 0 then NoLogsYet
       else LogLines (logs s))
      longTradeAddress shortTradeAddress.

(** The operations a click can start in a state: their button is rendered and
    not disabled.  [executeContracts] has no button of its own. *)
Definition clickable (op : Op) (s : State) : bool :=
  match op, render s with
  | Connect _, ConnectView buttonDisabled _ => negb buttonDisabled
  | Start, ControlsView startDisabled _ _ _ _ => negb startDisabled
  | Stop, ControlsView _ stopDisabled _ _ _ => negb stopDisabled
  | RunOnce, ControlsView _ _ _ _ _ => true
  | _, _ => false
  end.

(** The events no click is needed for. *)
Definition external (op : Op) : bool :=
  match op with
  | TimerFires _ | RunSettles _ | AccountsChanged _ | ChainChanged _
  | ClockShows _ => true
  | _ => false
  end.

(** The effect cleanup of lines 289-295 when the component is unmounted: the
    handle the last render saw is cleared. *)
Definition unmountCleanup : M unit :=
  render <- get ;;
  match executionInterval render with
  | Some handle => clearInterval handle
  | None => ret tt
  end.

Section PageSteps.

Variable BSC_MAINNET_CONFIG : ChainConfig.

(** A step of the component as a user of the page can cause it. *)
Definition pageStep (op : Op) (s : State) : option State :=
  if clickable op s || external op then step BSC_MAINNET_CONFIG op s
  else None.

Inductive pageReachable : State -> Prop :=
| pageReachable_initial eth now : pageReachable (initial eth now)
| pageReachable_step s op s' :
    pageReachable s -> pageStep op s = Some s' -> pageReachable s'.

End PageSteps.

(** ** The session and the calls it makes *)

(** Both bindings are built on [signer]. *)
Definition boundTo (signer : Signer) (long short : option Contract) : Prop :=
  long = Some (longTradeFor signer) /\ short = Some (shortTradeFor signer).

(** Both bindings are absent, or both are built on one signer. *)
Definition wired (long short : option Contract) : Prop :=
  (long = None /\ short = None) \/ exists signer, boundTo signer long short.

(** The two calls of one run of the dispatcher on the bindings of [signer]. *)
Definition callsFor (signer : Signer) : list (Contract * TxOptions) :=
  [(longTradeFor signer, txOptions); (shortTradeFor signer, txOptions)].

Record Wiring (s : State) : Prop := {
  wiring_session :
    if isConnected s
    then exists signer,
           boundTo signer (longTradeContract s) (shortTradeContract s)
    else longTradeContract s = None /\ shortTradeContract s = None;
  wiring_timers :
    forall t, In t (timers s) -> wired (seenLong t) (seenShort t);
  wiring_calls :
    exists signers, contractCalls s = flat_map callsFor signers
}.

(** Every armed interval closed over two bindings. *)
Definition timersBound (s : State) : Prop :=
  forall t, In t (timers s) -> seenLong t <> None /\ seenShort t <> None.

(** The four ordered records of [s'] continue those of [s]: nothing was
    removed or rewritten. *)
Definition extends (s s' : State) : Prop :=
  (exists new, logs s' = logs s ++ new)%list
  /\ (exists new, toasts s' = toasts s ++ new)%list
  /\ (exists new, walletRequests s' = walletRequests s ++ new)%list
  /\ (exists new, contractCalls s' = contractCalls s ++ new)%list.

(** The three markers the sanitizer looks for. *)
Definition signatureMarker := "MetaMask Tx Signature: ".
Definition userDeniedMarker := "ethers-user-denied: ".
Definition revertedMarker := "execution reverted: ".

Definition unmarked (message : string) : bool :=
  negb (JsString.includes signatureMarker message)
  && negb (JsString.includes userDeniedMarker message)
  && negb (JsString.includes revertedMarker message).

(** The texts [connectWallet] can show in a notification. *)
Definition connectNotifications : list Toast :=
  [ (ToastError, "MetaMask not detected. Please install MetaMask.");
    (ToastSuccess, "Wallet connected to BSC successfully");
    (ToastError, "Connection rejected by user");
    (ToastError, "A request is already pending. Please check MetaMask.");
    (ToastError, "Error connecting wallet") ].

(** The sequences of requests one [connectWallet] can send. *)
Definition connectRequestSequences (cfg : ChainConfig) : list (list Request) :=
  let switch := Wallet_switchEthereumChain (chainId cfg) in
  let add := Wallet_addEthereumChain cfg in
  [ [];
    [Eth_chainId];
    [Eth_chainId; Eth_requestAccounts];
    [Eth_chainId; Eth_requestAccounts; GetSigner];
    [Eth_chainId; switch];
    [Eth_chainId; switch; Eth_requestAccounts];
    [Eth_chainId; switch; Eth_requestAccounts; GetSigner];
    [Eth_chainId; switch; add];
    [Eth_chainId; switch; add; Eth_requestAccounts];
    [Eth_chainId; switch; add; Eth_requestAccounts; GetSigner] ].

(** ** The earlier variant of [connectWallet] (src/unnamed/part_000, lines
    44-112)

    It keeps no log and no connecting flag, does not look at the account
    list, and lets a failed request to add the chain reach its [catch]
    block as it is. *)

Definition earlierConnectionErrorMessage (error : Thrown) : string :=
  match error with
  | ThrownObject err =>
      if codeIs 4001 err then "Please connect to Binance Smart Chain"
      else if messageIncludes "user rejected request" err
      then "Connection rejected by user"
      else "Error connecting wallet"
  | ThrownPrimitive => "Error connecting wallet"
  end.

Section EarlierConnect.

Variable BSC_MAINNET_CONFIG : ChainConfig.

Definition earlierConnectWallet (w : Wallet) : M unit :=
  window <- get ;;
  if ethereum window then
    tryCatch
      (currentChainId <- request Eth_chainId (on_eth_chainId w) ;;
       (if negb (String.eqb currentChainId (chainId BSC_MAINNET_CONFIG)) then
          tryCatch
            (request (Wallet_switchEthereumChain (chainId BSC_MAINNET_CONFIG))
                     (on_switchEthereumChain w))
            (fun switchError =>
               if thrownCodeIs 4902 switchError then
                 request (Wallet_addEthereumChain BSC_MAINNET_CONFIG)
                         (on_addEthereumChain w)
               else throw switchError)
        else ret tt) ;;
       request Eth_requestAccounts (on_requestAccounts w) ;;
       web3Signer <- request GetSigner (on_getSigner w) ;;
       setLongTradeContract (Some (longTradeFor web3Signer)) ;;
       setShortTradeContract (Some (shortTradeFor web3Signer)) ;;
       setIsConnected true ;;
       toast ToastSuccess "Wallet connected to BSC successfully")
      (fun error => toast ToastError (earlierConnectionErrorMessage error))
  else toast ToastError "MetaMask not detected. Please install MetaMask.".

End EarlierConnect.

(** * Properties *)

(** ** Strings and the sanitizer *)

Module JsStringFacts.
Import JsString.

Lemma prefix_split (lit s : string) :
  String.prefix lit s = true -> s = lit ++ drop (String.length lit) s.
Proof.
  revert s; induction lit as [|c lit IH]; intros s H.
  - reflexivity.
  - destruct s as [|d s]; simpl in H; [discriminate|].
    destruct (ascii_dec c d) as [->|]; [|discriminate].
    simpl. f_equal. now apply IH.
Qed.

Lemma search_sound (lit s before rest : string) :
  search lit s = Some (before, rest) -> s = before ++ lit ++ rest.
Proof.
  revert before; induction s as [|c s IH]; intros before H.
  - cbn [search] in H. destruct (String.prefix lit "") eqn:E; [|discriminate].
    injection H as <- <-. now apply prefix_split in E.
  - cbn [search] in H. destruct (String.prefix lit (String c s)) eqn:E.
    + injection H as <- <-. now apply prefix_split in E.
    + destruct (search lit s) as [[b a]|]; [|discriminate].
      injection H as <- <-. simpl. f_equal. now apply IH.
Qed.

Lemma search_includes (lit s : string) :
  includes lit s = match search lit s with Some _ => true | None => false end.
Proof.
  induction s as [|c s IH].
  - cbn [includes search]. now destruct (String.prefix lit "").
  - cbn [includes search]. destruct (String.prefix lit (String c s)); [easy|].
    rewrite IH. now destruct (search lit s) as [[b a]|].
Qed.

Lemma regexTest_includes (lit s : string) : regexTest lit s = includes lit s.
Proof.
  unfold regexTest, regexExec. rewrite search_includes.
  now destruct (search lit s) as [[b a]|].
Qed.

Lemma length_append (a b : string) :
  String.length (a ++ b) = String.length a + String.length b.
Proof. induction a as [|c a IH]; simpl; [reflexivity | now rewrite IH]. Qed.

Lemma length_zero (a : string) : String.length a = 0 -> a = "".
Proof. now destruct a. Qed.

(** A line is split by [.*] into what it consumes and what it leaves. *)
Lemma dotStar_split (s : string) : s = dotStar s ++ afterDotStar s.
Proof.
  induction s as [|c s IH]; [reflexivity|]. cbn [dotStar afterDotStar].
  destruct (isLineTerminator (String c s)); simpl; [reflexivity | now f_equal].
Qed.

(** What [.*] leaves is empty or starts with a line terminator. *)
Lemma afterDotStar_starts (s : string) :
  afterDotStar s = "" \/ isLineTerminator (afterDotStar s) = true.
Proof.
  induction s as [|c s IH]; [now left|]. cbn [afterDotStar].
  destruct (isLineTerminator (String c s)) eqn:E; [now right | exact IH].
Qed.

(** [.*] leaves nothing exactly when no line terminator occurs. *)
Lemma afterDotStar_empty (s : string) :
  afterDotStar s = "" <-> hasLineTerminator s = false.
Proof.
  induction s as [|c s IH]; [now split|].
  cbn [afterDotStar hasLineTerminator].
  destruct (isLineTerminator (String c s)); [now split | exact IH].
Qed.

Lemma isLineTerminator_dotStar (c : ascii) (s : string) :
  isLineTerminator (String c s) = false ->
  isLineTerminator (String c (dotStar s)) = false.
Proof.
  intros H. destruct s as [|d [|e s]].
  - exact H.
  - cbn [dotStar]. destruct (isLineTerminator (String d "")); [|exact H].
    cbn in *. now rewrite andb_false_r in *.
  - cbn [dotStar].
    destruct (isLineTerminator (String d (String e s))).
    + cbn in *. apply orb_false_iff in H as [H _]. rewrite H.
      now rewrite andb_false_r.
    + destruct (isLineTerminator (String e s)); [|exact H].
      cbn in *. apply orb_false_iff in H as [H _]. rewrite H.
      now rewrite andb_false_r.
Qed.

(** What [.*] consumes holds no line terminator. *)
Lemma dotStar_no_terminator (s : string) :
  hasLineTerminator (dotStar s) = false.
Proof.
  induction s as [|c s IH]; [reflexivity|]. cbn [dotStar].
  destruct (isLineTerminator (String c s)) eqn:E; [reflexivity|].
  cbn [hasLineTerminator]. now rewrite (isLineTerminator_dotStar c s E), IH.
Qed.

End JsStringFacts.

(** C4.  The three test vectors of the sanitizer: a revert reason is kept
    behind "Transaction failed: ", the user-denied marker alone gives
    "Action cancelled", and a message no rule matches gives the fallback
    "Transaction failed". *)
Theorem sanitize_test_vectors :
  sanitizeErrorMessage "execution reverted: insufficient funds"
    = "Transaction failed: insufficient funds"
  /\ sanitizeErrorMessage "ethers-user-denied: foo" = "Action cancelled"
  /\ sanitizeErrorMessage "some unrelated provider noise" = "Transaction failed"
  /\ forallb (fun p => negb (JsString.regexTest (regex p)
                               "some unrelated provider noise")) patterns = true.
Proof. repeat split; reflexivity. Qed.

(** C2, as stated, fails: text in front of the user-denied marker is kept, so
    the result is not always the fixed string alone. *)
Lemma sanitize_user_denied_not_exact :
  ~ (forall message : string,
        JsString.includes "ethers-user-denied: " message = true ->
        JsString.includes "MetaMask Tx Signature: " message = false ->
        sanitizeErrorMessage message = "Action cancelled").
Proof.
  intros H.
  specialize (H "Error: ethers-user-denied: foo" eq_refl eq_refl).
  discriminate H.
Qed.

(** C2, amended.  For a message that contains the user-denied marker and not
    the signature prefix, the sanitizer replaces the first occurrence of the
    marker together with the rest of its line by "Action cancelled"; the
    text before the marker and the text from the end of that line on are kept.
    The line ends at the first line terminator (LF, CR, U+2028 or U+2029)
    after the marker.  The result is exactly "Action cancelled" if and only if
    the message starts with the marker and has no line terminator after
    it. *)
Theorem sanitize_user_denied (message : string) :
  JsString.includes "ethers-user-denied: " message = true ->
  JsString.includes "MetaMask Tx Signature: " message = false ->
  exists before rest : string,
    JsString.search "ethers-user-denied: " message = Some (before, rest)
    /\ message = before ++ "ethers-user-denied: " ++ rest
    /\ sanitizeErrorMessage message
       = before ++ "Action cancelled" ++ JsString.afterDotStar rest
    /\ (sanitizeErrorMessage message = "Action cancelled"
        <-> before = "" /\ JsString.afterDotStar rest = "")
    /\ rest = JsString.dotStar rest ++ JsString.afterDotStar rest
    /\ JsString.hasLineTerminator (JsString.dotStar rest) = false
    /\ (JsString.afterDotStar rest = ""
        \/ JsString.isLineTerminator (JsString.afterDotStar rest) = true)
    /\ (JsString.afterDotStar rest = ""
        <-> JsString.hasLineTerminator rest = false).
Proof.
  intros Hmarker Hsig.
  rewrite JsStringFacts.search_includes in Hmarker.
  destruct (JsString.search "ethers-user-denied: " message)
    as [[before rest]|] eqn:E; [|discriminate].
  exists before, rest.
  assert (Hout : sanitizeErrorMessage message
                 = before ++ "Action cancelled" ++ JsString.afterDotStar rest).
  { unfold sanitizeErrorMessage, patterns, sanitizeLoop.
    cbn [regex replace].
    rewrite !JsStringFacts.regexTest_includes, Hsig.
    rewrite JsStringFacts.search_includes, E.
    unfold JsString.replace, JsString.regexExec. rewrite E. reflexivity. }
  split; [reflexivity|]. split; [now apply JsStringFacts.search_sound|].
  split; [exact Hout|]. split.
  - rewrite Hout. split.
    + intros H. apply (f_equal String.length) in H.
      rewrite !JsStringFacts.length_append in H. cbn [String.length] in H.
      split; apply JsStringFacts.length_zero; lia.
    + intros [-> ->]. reflexivity.
  - split; [apply JsStringFacts.dotStar_split|].
    split; [apply JsStringFacts.dotStar_no_terminator|].
    split; [apply JsStringFacts.afterDotStar_starts
           | apply JsStringFacts.afterDotStar_empty].
Qed.

Lemma sanitize_user_denied_witness :
  sanitizeErrorMessage
    ("Error: ethers-user-denied: foo" ++ JsString.lineSeparator ++ "at line 2")
  = "Error: Action cancelled" ++ JsString.lineSeparator ++ "at line 2"
  /\ sanitizeErrorMessage
       ("ethers-user-denied: foo" ++ JsString.paragraphSeparator)
     <> "Action cancelled".
Proof.
  split.
  - destruct (sanitize_user_denied
                ("Error: ethers-user-denied: foo" ++ JsString.lineSeparator
                 ++ "at line 2") eq_refl eq_refl)
      as (before & rest & E & _ & Hout & _).
    vm_compute in E. injection E as <- <-. exact Hout.
  - destruct (sanitize_user_denied
                ("ethers-user-denied: foo" ++ JsString.paragraphSeparator)
                eq_refl eq_refl)
      as (before & rest & E & _ & _ & Hiff & _).
    vm_compute in E. injection E as <- <-.
    intros H. destruct (proj1 Hiff H) as [_ Habs]. discriminate Habs.
Defined.

(** ** Unfolding statements *)

Ltac unfold_js :=
  cbv [handle exec intervalCleanup
       startIntervalExecution stopExecution runOnce executeContracts
       executeContracts_resume handleAccountsChanged handleChainChanged
       suspend resume initiateFlashLoan setInterval clearInterval request await
       addLog toast setLongTradeContract setShortTradeContract setIsConnected
       setIsConnecting setExecutionInterval setIsRunning
       bind ret throw tryCatch tryFinally get modify fst snd].

Lemma handle_eqb_refl (h : option TimerId) : handle_eqb h h = true.
Proof. destruct h; simpl; [apply Pos.eqb_refl | reflexivity]. Qed.

(** A handler that leaves the handle alone causes no cleanup. *)
Lemma handle_same_interval (handler : M unit) (s : State) :
  executionInterval (exec handler s) = executionInterval s ->
  handle handler s = exec handler s.
Proof.
  intros H. unfold handle, intervalCleanup, exec at 1, bind, get.
  cbv beta iota. rewrite H, handle_eqb_refl. reflexivity.
Qed.

(** ** The dispatcher without bindings *)

(** The guard of [executeContracts]: what the function does when a binding is
    absent. *)
Lemma executeContracts_guard (long short : option Contract) (s : State) :
  long = None \/ short = None ->
  executeContracts long short s
  = (Normal tt,
     set_logs (logs s ++ [clock s ++ ": Error: Contracts not initialized"])
       (set_toasts
          (toasts s ++ [(ToastError,
             "Contracts not initialized. Please connect wallet first.")]) s)).
Proof. intros [-> | ->]; [|destruct long]; reflexivity. Qed.

Lemma executeContracts_guard_frame (long short : option Contract) (s : State) :
  long = None \/ short = None ->
  sameScheduler s (exec (executeContracts long short) s).
Proof.
  intros H. unfold exec. rewrite (executeContracts_guard long short s H).
  repeat split.
Qed.

(** C3.  When a binding is absent, [executeContracts] returns at once: it
    shows the error notification and appends the "Contracts not initialized"
    entry to the log, calls no contract, suspends no run, and changes neither
    [isRunning] nor the timer handle nor the armed intervals. *)
Theorem executeContracts_not_initialized
    (long short : option Contract) (s : State) :
  long = None \/ short = None ->
  executeContracts long short s
  = (Normal tt,
     set_logs (logs s ++ [clock s ++ ": Error: Contracts not initialized"])
       (set_toasts
          (toasts s ++ [(ToastError,
             "Contracts not initialized. Please connect wallet first.")]) s))
  /\ contractCalls (exec (executeContracts long short) s) = contractCalls s
  /\ pendingRuns (exec (executeContracts long short) s) = pendingRuns s
  /\ isRunning (exec (executeContracts long short) s) = isRunning s
  /\ executionInterval (exec (executeContracts long short) s)
     = executionInterval s
  /\ timers (exec (executeContracts long short) s) = timers s
  /\ handle (executeContracts long short) s
     = exec (executeContracts long short) s.
Proof.
  intros H.
  destruct (executeContracts_guard_frame long short s H)
    as (Hi & Hr & Ht & _ & Hp & Hc & _).
  split; [now apply executeContracts_guard|].
  repeat split; try assumption.
  now apply handle_same_interval.
Qed.

Lemma executeContracts_not_initialized_witness :
  contractCalls (exec (executeContracts None None) (initial true "09:00:00"))
  = []
  /\ logs (exec (executeContracts None None) (initial true "09:00:00"))
     = ["09:00:00: Error: Contracts not initialized"].
Proof.
  destruct (executeContracts_not_initialized None None
              (initial true "09:00:00") (or_introl eq_refl))
    as (E & Hc & _).
  split; [exact Hc|]. unfold exec. rewrite E. reflexivity.
Defined.

(** ** Frames: what a statement leaves alone *)

Section Frames.

Variable R : State -> State -> Prop.
Hypothesis R_refl : forall s, R s s.
Hypothesis R_trans : forall s1 s2 s3, R s1 s2 -> R s2 s3 -> R s1 s3.

Lemma keeps_ret {A} (a : A) : Keeps R (ret a).
Proof. intros s. apply R_refl. Qed.

Lemma keeps_throw {A} (e : Thrown) : Keeps R (@throw A e).
Proof. intros s. apply R_refl. Qed.

Lemma keeps_get : Keeps R get.
Proof. intros s. apply R_refl. Qed.

Lemma keeps_await {A} (r : Reply A) : Keeps R (await r).
Proof. destruct r; [apply keeps_ret | apply keeps_throw]. Qed.

Lemma keeps_modify (f : State -> State) :
  (forall s, R s (f s)) -> Keeps R (modify f).
Proof. intros H s. apply H. Qed.

Lemma keeps_bind {A B} (m : M A) (k : A -> M B) :
  Keeps R m -> (forall a, Keeps R (k a)) -> Keeps R (bind m k).
Proof.
  intros Hm Hk s. specialize (Hm s). unfold exec, bind in *.
  destruct (m s) as [[a|e] s1]; simpl in *; [|exact Hm].
  eapply R_trans; [exact Hm | apply Hk].
Qed.

Lemma keeps_tryCatch {A} (body : M A) (handler : Thrown -> M A) :
  Keeps R body -> (forall e, Keeps R (handler e)) ->
  Keeps R (tryCatch body handler).
Proof.
  intros Hm Hk s. specialize (Hm s). unfold exec, tryCatch in *.
  destruct (body s) as [[a|e] s1]; simpl in *; [exact Hm|].
  eapply R_trans; [exact Hm | apply Hk].
Qed.

Lemma keeps_tryFinally {A} (body : M A) (finalizer : M unit) :
  Keeps R body -> Keeps R finalizer -> Keeps R (tryFinally body finalizer).
Proof.
  intros Hm Hf s. specialize (Hm s). unfold exec, tryFinally in *.
  destruct (body s) as [c s1]; simpl in *.
  specialize (Hf s1). unfold exec in Hf.
  destruct (finalizer s1) as [[u|e] s2]; simpl in *;
    apply (R_trans _ _ _ Hm Hf).
Qed.

End Frames.

Ltac keeps_step Hr Ht :=
  lazymatch goal with
  | |- Keeps _ (bind _ _) => apply (keeps_bind _ Ht); [|intros ?]
  | |- Keeps _ (tryCatch _ _) => apply (keeps_tryCatch _ Ht); [|intros ?]
  | |- Keeps _ (tryFinally _ _) => apply (keeps_tryFinally _ Ht)
  | |- Keeps _ (ret _) => apply (keeps_ret _ Hr)
  | |- Keeps _ (throw _) => apply (keeps_throw _ Hr)
  | |- Keeps _ get => apply (keeps_get _ Hr)
  | |- Keeps _ (await _) => apply (keeps_await _ Hr)
  | |- Keeps _ (modify _) => apply keeps_modify; intros ?; repeat split
  | |- Keeps _ (if ?b then _ else _) => destruct b
  | |- Keeps _ (match ?x with _ => _ end) => destruct x
  end.

Lemma sameScheduler_refl s : sameScheduler s s.
Proof. repeat split. Qed.

Lemma sameScheduler_trans s1 s2 s3 :
  sameScheduler s1 s2 -> sameScheduler s2 s3 -> sameScheduler s1 s3.
Proof. unfold sameScheduler. intuition congruence. Qed.

(** [connectWallet] never touches the scheduler. *)
Lemma connectWallet_frame cfg w : Keeps sameScheduler (connectWallet cfg w).
Proof.
  pose proof sameScheduler_refl as Hr. pose proof sameScheduler_trans as Ht.
  unfold connectWallet, ensureNetwork, request, addLog, toast,
    setLongTradeContract, setShortTradeContract, setIsConnected,
    setIsConnecting.
  repeat keeps_step Hr Ht.
Qed.

(** Without a wallet, [connectWallet] only shows a notification. *)
Lemma connectWallet_no_wallet cfg w s :
  ethereum s = false ->
  connectWallet cfg w s
  = (Normal tt,
     set_toasts (toasts s ++ [(ToastError,
       "MetaMask not detected. Please install MetaMask.")]) s).
Proof. intros H. unfold connectWallet, bind, get. rewrite H. reflexivity. Qed.

(** ** What the scheduler and the dispatcher do to the state *)

Lemma executeContracts_frame long short s :
  executionInterval (exec (executeContracts long short) s)
  = executionInterval s
  /\ timers (exec (executeContracts long short) s) = timers s
  /\ nextTimerId (exec (executeContracts long short) s) = nextTimerId s
  /\ isConnected (exec (executeContracts long short) s) = isConnected s
  /\ ethereum (exec (executeContracts long short) s) = ethereum s.
Proof. destruct long, short; repeat split. Qed.

(** With both bindings, the run sets [isRunning], makes the two calls and is
    suspended. *)
Lemma executeContracts_started longTrade shortTrade s :
  executeContracts (Some longTrade) (Some shortTrade) s
  = (Normal tt,
     set_pendingRuns (S (pendingRuns s))
       (set_contractCalls
          (contractCalls s ++ [(longTrade, txOptions); (shortTrade, txOptions)])
          (set_logs (logs s ++ [clock s ++ ": Executing contracts..."])
             (set_isRunning true s)))).
Proof.
  unfold_js. cbn. rewrite <- app_assoc. reflexivity.
Qed.

Lemma executeContracts_running long short s :
  (isRunning (exec (executeContracts long short) s) = isRunning s
   /\ pendingRuns (exec (executeContracts long short) s) = pendingRuns s)
  \/ (isRunning (exec (executeContracts long short) s) = true
      /\ pendingRuns (exec (executeContracts long short) s)
         = S (pendingRuns s)).
Proof.
  destruct long, short;
    (left; split; reflexivity) || (right; split; reflexivity).
Qed.

Lemma handle_executeContracts long short s :
  handle (executeContracts long short) s = exec (executeContracts long short) s.
Proof. apply handle_same_interval, executeContracts_frame. Qed.

Lemma filter_armed_single id ts :
  map timerId ts = [id] ->
  filter (fun t => negb (Pos.eqb (timerId t) id)) ts = [].
Proof.
  destruct ts as [|t [|u ts]]; simpl; try discriminate.
  intros H. injection H as ->. now rewrite Pos.eqb_refl.
Qed.

Lemma armed_clear s h :
  armed s = handleList (executionInterval s) ->
  executionInterval s = Some h ->
  filter (fun t => negb (Pos.eqb (timerId t) h)) (timers s) = [].
Proof. intros Ha Eh. rewrite Eh in Ha. now apply filter_armed_single. Qed.

Lemma armed_none s :
  armed s = handleList (executionInterval s) ->
  executionInterval s = None -> timers s = [].
Proof.
  unfold armed. intros Ha Eh. rewrite Eh in Ha. now destruct (timers s).
Qed.

(** What [startIntervalExecution] does to [isRunning], to the suspended runs
    and to the contract calls is what its call of [executeContracts] does. *)
Lemma start_frame s :
  executionInterval (handle startIntervalExecution s) = Some (nextTimerId s)
  /\ nextTimerId (handle startIntervalExecution s) = Pos.succ (nextTimerId s)
  /\ isRunning (handle startIntervalExecution s)
     = isRunning (exec (executeContracts (longTradeContract s)
                          (shortTradeContract s)) s)
  /\ pendingRuns (handle startIntervalExecution s)
     = pendingRuns (exec (executeContracts (longTradeContract s)
                            (shortTradeContract s)) s)
  /\ contractCalls (handle startIntervalExecution s)
     = contractCalls (exec (executeContracts (longTradeContract s)
                              (shortTradeContract s)) s)
  /\ isConnected (handle startIntervalExecution s) = isConnected s
  /\ ethereum (handle startIntervalExecution s) = ethereum s.
Proof.
  unfold_js.
  destruct (executionInterval s) as [h|] eqn:Eh,
    (longTradeContract s), (shortTradeContract s); cbn.
  all: rewrite ?Eh; cbn.
  all: try (destruct (Pos.eqb h (nextTimerId s)); cbn).
  all: repeat split.
Qed.

(** [startIntervalExecution] leaves exactly the interval it arms. *)
Lemma start_timers s :
  armed s = handleList (executionInterval s) ->
  timers (handle startIntervalExecution s) = [newTimer s].
Proof.
  intros Ha. pose proof (armed_clear s) as Hclear.
  pose proof (armed_none s Ha) as Hnone. unfold newTimer.
  unfold_js.
  destruct (executionInterval s) as [h|] eqn:Eh,
    (longTradeContract s), (shortTradeContract s); cbn.
  all: rewrite ?Eh; cbn.
  all: rewrite ?(Hclear _ Ha eq_refl), ?(Hnone eq_refl); cbn.
  all: try (destruct (Pos.eqb_spec h (nextTimerId s)) as [->|Hne]; cbn;
            rewrite ?Pos.eqb_refl; cbn;
            try (destruct (Pos.eqb_spec (nextTimerId s) h);
                 [congruence|]; cbn)).
  all: reflexivity.
Qed.

(** The handler alone, before the render it causes: [clearInterval] has
    removed the interval that was armed when [setInterval] arms the new one. *)
Lemma start_timers_handler s :
  armed s = handleList (executionInterval s) ->
  timers (exec startIntervalExecution s) = [newTimer s].
Proof.
  intros Ha. pose proof (armed_clear s) as Hclear.
  pose proof (armed_none s Ha) as Hnone. unfold newTimer.
  cbv [exec startIntervalExecution executeContracts suspend initiateFlashLoan
       setInterval clearInterval addLog toast setExecutionInterval
       setIsRunning bind ret get modify fst snd].
  destruct (executionInterval s) as [h|] eqn:Eh,
    (longTradeContract s), (shortTradeContract s); cbn.
  all: rewrite ?(Hclear _ Ha eq_refl), ?(Hnone eq_refl); reflexivity.
Qed.

Lemma stop_no_timer s :
  executionInterval s = None -> stopExecution s = (Normal tt, s).
Proof. intros H. unfold stopExecution, bind, get. rewrite H. reflexivity. Qed.

Lemma stop_timer s h :
  executionInterval s = Some h ->
  stopExecution s
  = (Normal tt,
     set_toasts (toasts s ++ [(ToastPlain, "Execution stopped")])
       (set_logs (logs s ++ [clock s ++ ": Execution stopped"])
          (set_executionInterval None
             (set_timers
                (filter (fun t => negb (Pos.eqb (timerId t) h)) (timers s))
                (set_isRunning false s))))).
Proof. intros H. unfold stopExecution, bind, get. rewrite H. reflexivity. Qed.

Lemma stop_normal s : fst (stopExecution s) = Normal tt.
Proof.
  destruct (executionInterval s) as [h|] eqn:E.
  - now rewrite (stop_timer s h E).
  - now rewrite (stop_no_timer s E).
Qed.

Lemma stop_clears_handle s : executionInterval (exec stopExecution s) = None.
Proof.
  unfold exec. destruct (executionInterval s) as [h|] eqn:E.
  - now rewrite (stop_timer s h E).
  - now rewrite (stop_no_timer s E).
Qed.

Lemma handle_stop_no_timer s :
  executionInterval s = None -> handle stopExecution s = s.
Proof.
  intros H. rewrite handle_same_interval; unfold exec;
    rewrite (stop_no_timer s H); reflexivity.
Qed.

Lemma filter_twice {A} (f : A -> bool) (l : list A) :
  filter f (filter f l) = filter f l.
Proof.
  induction l as [|a l IH]; simpl; [reflexivity|].
  destruct (f a) eqn:E; simpl; rewrite ?E, IH; reflexivity.
Qed.

Lemma handle_stop_timer s h :
  executionInterval s = Some h ->
  handle stopExecution s = exec stopExecution s.
Proof.
  intros H. unfold handle, intervalCleanup, exec, bind, get.
  rewrite (stop_timer s h H). cbn. rewrite H. cbn.
  unfold set_timers at 1. cbn. rewrite filter_twice. reflexivity.
Qed.

Lemma handle_stop s : handle stopExecution s = exec stopExecution s.
Proof.
  destruct (executionInterval s) as [h|] eqn:E.
  - now apply (handle_stop_timer s h).
  - rewrite (handle_stop_no_timer s E). unfold exec.
    now rewrite (stop_no_timer s E).
Qed.

(** The rest of a run, once the joined promise settles. *)
Lemma resume_effect settled s :
  fst (executeContracts_resume settled s) = Normal tt
  /\ isRunning (exec (executeContracts_resume settled) s) = false
  /\ pendingRuns (exec (executeContracts_resume settled) s)
     = pred (pendingRuns s)
  /\ executionInterval (exec (executeContracts_resume settled) s)
     = executionInterval s
  /\ timers (exec (executeContracts_resume settled) s) = timers s
  /\ isConnected (exec (executeContracts_resume settled) s) = isConnected s
  /\ ethereum (exec (executeContracts_resume settled) s) = ethereum s
  /\ contractCalls (exec (executeContracts_resume settled) s)
     = contractCalls s
  /\ nextTimerId (exec (executeContracts_resume settled) s) = nextTimerId s.
Proof. destruct settled as [[]|e]; repeat split. Qed.

Lemma resume_outcome settled s :
  let said :=
    match settled with
    | Resolved _ =>
        ("Flash loans initiated successfully!",
         (ToastSuccess, "Flash loans initiated successfully on BSC!"))
    | Rejected error =>
        ("Execution error: " ++ executionErrorMessage error,
         (ToastError, executionErrorMessage error))
    end in
  logs (exec (executeContracts_resume settled) s)
  = (logs s ++ [(clock s ++ ": " ++ fst said)%string])%list
  /\ toasts (exec (executeContracts_resume settled) s)
     = (toasts s ++ [snd said])%list.
Proof. destruct settled as [[]|e]; split; reflexivity. Qed.

Lemma handle_resume settled s :
  handle (executeContracts_resume settled) s
  = exec (executeContracts_resume settled) s.
Proof. apply handle_same_interval, resume_effect. Qed.

Lemma runOnce_exec s :
  exec runOnce s
  = exec (executeContracts (longTradeContract s) (shortTradeContract s))
      (set_toasts (toasts s ++ [(ToastPlain, "Executing contracts once")])
         (set_logs (logs s ++ [clock s ++ ": Executing contracts once"]) s)).
Proof. reflexivity. Qed.

Lemma handle_runOnce s : handle runOnce s = exec runOnce s.
Proof.
  apply handle_same_interval. rewrite runOnce_exec.
  destruct (executeContracts_frame (longTradeContract s)
              (shortTradeContract s)
              (set_toasts (toasts s ++ [(ToastPlain, "Executing contracts once")])
                 (set_logs (logs s ++ [clock s ++ ": Executing contracts once"])
                    s))) as (H & _).
  exact H.
Qed.

(** The empty account list disconnects; any other list changes nothing. *)
Lemma accountsChanged_empty s :
  handleAccountsChanged [] s
  = (Normal tt,
     set_toasts (toasts s ++ [(ToastInfo, "Wallet disconnected")])
       (set_logs (logs s ++ [clock s ++ ": Wallet disconnected"])
          (set_shortTradeContract None
             (set_longTradeContract None (set_isConnected false s))))).
Proof. reflexivity. Qed.

Lemma accountsChanged_nonempty account accounts s :
  handleAccountsChanged (account :: accounts) s = (Normal tt, s).
Proof. reflexivity. Qed.

Lemma handle_accountsChanged accounts s :
  handle (handleAccountsChanged accounts) s
  = exec (handleAccountsChanged accounts) s.
Proof. apply handle_same_interval. now destruct accounts. Qed.

Lemma handle_connectWallet cfg w s :
  handle (connectWallet cfg w) s = exec (connectWallet cfg w) s.
Proof. apply handle_same_interval, (connectWallet_frame cfg w s). Qed.

(** ** The invariant *)

Lemma Inv_initial eth now : Inv (initial eth now).
Proof. split; cbn; [reflexivity | tauto | discriminate | discriminate]. Qed.

Lemma Inv_executeContracts long short s :
  Inv s -> Inv (exec (executeContracts long short) s).
Proof.
  intros [Ha Hf Hr Hl].
  destruct (executeContracts_frame long short s) as (Hi & Ht & Hn & Hc & He).
  split; unfold armed, runInProgress in *.
  - now rewrite Ht, Hi.
  - now rewrite Ht, Hn.
  - destruct (executeContracts_running long short s) as [[-> ->]|[_ ->]];
      [exact Hr | lia].
  - now rewrite Hc, He.
Qed.

Lemma In_filter_keep {A} (f : A -> bool) (l : list A) (a : A) :
  In a (filter f l) -> In a l.
Proof. intros H. now apply filter_In in H. Qed.

Lemma step_Inv cfg op s s' : Inv s -> step cfg op s = Some s' -> Inv s'.
Proof.
  intros HI Hstep. pose proof HI as [Ha Hf Hr Hl].
  destruct op; cbn [step] in Hstep.
  - (* Connect *)
    injection Hstep as <-. rewrite handle_connectWallet.
    destruct (connectWallet_frame cfg w s)
      as (Hi & Hrun & Ht & Hn & Hp & _ & He).
    split; unfold armed, runInProgress in *.
    + now rewrite Ht, Hi.
    + now rewrite Ht, Hn.
    + now rewrite Hrun, Hp.
    + destruct (ethereum s) eqn:Eth; [now rewrite He|].
      unfold exec. rewrite (connectWallet_no_wallet cfg w s Eth). cbn.
      intros Hc. discriminate (Hl Hc).
  - (* Execute *)
    injection Hstep as <-. rewrite handle_executeContracts.
    now apply Inv_executeContracts.
  - (* Start *)
    injection Hstep as <-.
    destruct (start_frame s) as (Hi & Hn & Hrun & Hp & _ & Hc & He).
    pose proof (start_timers s Ha) as Ht.
    split; unfold armed, runInProgress in *.
    + rewrite Ht, Hi. reflexivity.
    + rewrite Ht, Hn. intros t [<-|[]]. cbn. lia.
    + rewrite Hrun, Hp.
      destruct (executeContracts_running (longTradeContract s)
                  (shortTradeContract s) s) as [[-> ->]|[_ ->]];
        [exact Hr | lia].
    + now rewrite Hc, He.
  - (* Stop *)
    injection Hstep as <-. rewrite handle_stop. unfold exec.
    destruct (executionInterval s) as [h|] eqn:E.
    + rewrite (stop_timer s h E). split; cbn.
      * unfold armed. cbn. now rewrite (armed_clear s h (inv_armed s HI) E).
      * intros t Ht. apply Hf. now apply In_filter_keep in Ht.
      * discriminate.
      * exact Hl.
    + now rewrite (stop_no_timer s E).
  - (* RunOnce *)
    injection Hstep as <-. rewrite handle_runOnce, runOnce_exec.
    apply Inv_executeContracts. split; cbn; assumption.
  - (* TimerFires *)
    destruct (findTimer id s) as [t|]; [|discriminate].
    injection Hstep as <-. rewrite handle_executeContracts.
    now apply Inv_executeContracts.
  - (* RunSettles *)
    destruct (pendingRuns s) as [|n] eqn:En; [discriminate|].
    injection Hstep as <-. rewrite handle_resume.
    destruct (resume_effect settled s)
      as (_ & Hrun & _ & Hi & Ht & Hc & He & _ & Hn).
    split; unfold armed, runInProgress in *.
    + now rewrite Ht, Hi.
    + now rewrite Ht, Hn.
    + rewrite Hrun. discriminate.
    + now rewrite Hc, He.
  - (* AccountsChanged *)
    destruct (listening s); [|discriminate].
    injection Hstep as <-. rewrite handle_accountsChanged.
    destruct accounts as [|a accounts]; [|exact HI].
    split; cbn; [exact Ha | exact Hf | exact Hr | discriminate].
  - (* ChainChanged *)
    destruct (listening s); [|discriminate].
    injection Hstep as <-. split; cbn; [reflexivity | tauto | discriminate..].
  - (* ClockShows *)
    injection Hstep as <-. split; cbn; assumption.
Qed.

Lemma reachable_Inv cfg s : reachable cfg s -> Inv s.
Proof.
  induction 1 as [eth now | s op s' _ IH Hstep].
  - apply Inv_initial.
  - exact (step_Inv cfg op s s' IH Hstep).
Qed.

Lemma steps_reachable cfg ops s s' :
  reachable cfg s -> steps cfg ops s = Some s' -> reachable cfg s'.
Proof.
  revert s; induction ops as [|op ops IH]; intros s Hs H; cbn in H.
  - now injection H as <-.
  - destruct (step cfg op s) as [s1|] eqn:E; [|discriminate].
    apply (IH s1); [|exact H]. exact (reachable_step cfg s op s1 Hs E).
Qed.

Lemma steps_app cfg ops1 ops2 s :
  steps cfg (ops1 ++ ops2) s
  = match steps cfg ops1 s with
    | Some s1 => steps cfg ops2 s1
    | None => None
    end.
Proof.
  revert s; induction ops1 as [|op ops1 IH]; intros s; cbn; [reflexivity|].
  destruct (step cfg op s); [apply IH | reflexivity].
Qed.

(** ** The scheduler *)

(** C1, as stated, fails: after a connection, [start] and the settling of the
    first run, the timer handle is present while [isRunning] is false. *)
Lemma timer_present_while_not_running :
  ~ (forall cfg s,
        reachable cfg s ->
        (executionInterval s <> None -> isRunning s = true)
        /\ List.length (timers s) <= 1).
Proof.
  intros H.
  destruct (steps exampleConfig
              [Connect grantingWallet; Start; RunSettles (Resolved tt)]
              (initial true "09:00:00")) as [s|] eqn:Hsteps;
    [|vm_compute in Hsteps; discriminate Hsteps].
  assert (Hs : reachable exampleConfig s)
    by (apply steps_reachable in Hsteps; [exact Hsteps | apply reachable_initial]).
  destruct (H _ _ Hs) as [Hrun _].
  vm_compute in Hsteps. injection Hsteps as <-.
  assert (Habs : false = true) by (apply Hrun; discriminate).
  discriminate Habs.
Qed.

(** C1, amended.  In every state reachable by the operations and their
    completions, at most one timer is armed and the timer handle is present
    exactly when a timer is armed, which it then names; [isRunning] is true
    only while a run of [executeContracts] is in progress.  (The handle may
    be present while [isRunning] is false.) *)
Theorem scheduler_invariant cfg s :
  reachable cfg s ->
  List.length (timers s) <= 1
  /\ armed s = handleList (executionInterval s)
  /\ (executionInterval s <> None <-> timers s <> [])
  /\ (isRunning s = true -> runInProgress s).
Proof.
  intros Hs. destruct (reachable_Inv cfg s Hs) as [Ha _ Hr _].
  assert (Hlen : List.length (timers s) = List.length (handleList (executionInterval s))).
  { rewrite <- Ha. unfold armed. now rewrite length_map. }
  repeat split.
  - rewrite Hlen. destruct (executionInterval s); cbn; lia.
  - exact Ha.
  - intros Hh Ht. rewrite Ht in Hlen.
    destruct (executionInterval s); [discriminate | congruence].
  - intros Ht Hh. rewrite Hh in Hlen.
    destruct (timers s); [congruence | discriminate].
  - exact Hr.
Qed.

Lemma scheduler_invariant_witness :
  exists s,
    steps exampleConfig
      [Connect grantingWallet; Start; RunSettles (Resolved tt)]
      (initial true "09:00:00") = Some s
    /\ List.length (timers s) <= 1
    /\ armed s = handleList (executionInterval s)
    /\ (executionInterval s <> None <-> timers s <> [])
    /\ (isRunning s = true -> runInProgress s).
Proof.
  destruct (steps exampleConfig
              [Connect grantingWallet; Start; RunSettles (Resolved tt)]
              (initial true "09:00:00")) as [s|] eqn:Hsteps;
    [|vm_compute in Hsteps; discriminate Hsteps].
  exists s. split; [reflexivity|].
  apply (scheduler_invariant exampleConfig).
  exact (steps_reachable exampleConfig _ _ s
           (reachable_initial exampleConfig true "09:00:00") Hsteps).
Defined.

(** C6.  Whatever the sequence of operations, and however many calls of
    [start] it contains, at most one interval is armed after each of its
    prefixes.  A call of [start] cancels the interval that was armed before it
    arms the new one: when the handler returns, before the render it causes,
    the only interval armed is the new one, which repeats every 3000 ms, and
    the same holds after the render. *)
Theorem start_keeps_one_timer cfg eth now ops1 ops2 s :
  steps cfg (ops1 ++ ops2) (initial eth now) = Some s ->
  exists s1,
    steps cfg ops1 (initial eth now) = Some s1
    /\ List.length (timers s1) <= 1
    /\ timers (exec startIntervalExecution s1) = [newTimer s1]
    /\ (forall t, In t (timers s1) ->
                  ~ In t (timers (exec startIntervalExecution s1)))
    /\ exists s2,
        step cfg Start s1 = Some s2
        /\ timers s2 = [newTimer s1]
        /\ delay (newTimer s1) = 3000%Z
        /\ executionInterval s2 = Some (timerId (newTimer s1))
        /\ (forall t, In t (timers s1) -> ~ In t (timers s2)).
Proof.
  intros H. rewrite steps_app in H.
  destruct (steps cfg ops1 (initial eth now)) as [s1|] eqn:E1; [|discriminate].
  exists s1. split; [reflexivity|].
  assert (Hs1 : reachable cfg s1)
    by (apply (steps_reachable cfg ops1 (initial eth now));
        [apply reachable_initial | exact E1]).
  destruct (reachable_Inv cfg s1 Hs1) as [Ha Hf _ _].
  assert (Hfresh : forall t, In t (timers s1) -> ~ In t [newTimer s1]).
  { intros t Hin [<-|[]]. specialize (Hf _ Hin). cbn in Hf. lia. }
  split; [|split; [|split]].
  - assert (Hlen : List.length (timers s1)
                   = List.length (handleList (executionInterval s1)))
      by (rewrite <- Ha; unfold armed; now rewrite length_map).
    rewrite Hlen. destruct (executionInterval s1); cbn; lia.
  - now apply start_timers_handler.
  - rewrite (start_timers_handler s1 Ha). exact Hfresh.
  - exists (handle startIntervalExecution s1).
    destruct (start_frame s1) as (Hi & _).
    pose proof (start_timers s1 Ha) as Ht.
    repeat split; try assumption.
    rewrite Ht. exact Hfresh.
Qed.

Lemma start_keeps_one_timer_witness :
  exists s1,
    steps exampleConfig [Connect grantingWallet; Start; Start]
      (initial true "09:00:00") = Some s1
    /\ List.length (timers s1) <= 1
    /\ timers (exec startIntervalExecution s1) = [newTimer s1]
    /\ (forall t, In t (timers s1) ->
                  ~ In t (timers (exec startIntervalExecution s1)))
    /\ exists s2,
        step exampleConfig Start s1 = Some s2
        /\ timers s2 = [newTimer s1]
        /\ delay (newTimer s1) = 3000%Z
        /\ executionInterval s2 = Some (timerId (newTimer s1))
        /\ (forall t, In t (timers s1) -> ~ In t (timers s2)).
Proof.
  destruct (steps exampleConfig
              ([Connect grantingWallet; Start; Start] ++ [Stop; Start])
              (initial true "09:00:00")) as [s|] eqn:E;
    [|vm_compute in E; discriminate E].
  exact (start_keeps_one_timer exampleConfig true "09:00:00"
           [Connect grantingWallet; Start; Start] [Stop; Start] s E).
Defined.

(** C8.  Without a timer, [stop] returns normally and leaves the whole state
    as it is; in any state it returns normally, and a second [stop] right
    after a first one changes nothing. *)
Theorem stop_idempotent cfg s :
  (executionInterval s = None ->
   stopExecution s = (Normal tt, s) /\ step cfg Stop s = Some s)
  /\ fst (stopExecution s) = Normal tt
  /\ stopExecution (exec stopExecution s) = (Normal tt, exec stopExecution s)
  /\ (forall s1, step cfg Stop s = Some s1 -> step cfg Stop s1 = Some s1).
Proof.
  split; [|split; [|split]].
  - intros H. split; [now apply stop_no_timer|].
    cbn [step]. now rewrite handle_stop_no_timer.
  - apply stop_normal.
  - apply stop_no_timer, stop_clears_handle.
  - intros s1 H. cbn [step] in *. injection H as <-.
    rewrite (handle_stop_no_timer (handle stopExecution s)); [reflexivity|].
    rewrite handle_stop. apply stop_clears_handle.
Qed.

Lemma stop_idempotent_witness :
  stopExecution (initial true "09:00:00")
  = (Normal tt, initial true "09:00:00")
  /\ step exampleConfig Stop (initial true "09:00:00")
     = Some (initial true "09:00:00").
Proof.
  exact (proj1 (stop_idempotent exampleConfig (initial true "09:00:00"))
           eq_refl).
Defined.

(** ** Wallet notifications *)

(** C9.  While the session is connected, an accounts-changed notification
    with an empty list sets [isConnected] to false and clears both bindings,
    with one log entry and one notification, and leaves the rest of the state
    alone; the handlers are then no longer registered, so that a second such
    notification is not handled.  A notification with a non-empty list
    leaves the state unchanged. *)
Theorem accountsChanged_disconnects cfg s :
  reachable cfg s ->
  isConnected s = true ->
  (exists s',
      step cfg (AccountsChanged []) s = Some s'
      /\ s' = set_toasts (toasts s ++ [(ToastInfo, "Wallet disconnected")])
                (set_logs (logs s ++ [clock s ++ ": Wallet disconnected"])
                   (set_shortTradeContract None
                      (set_longTradeContract None (set_isConnected false s))))
      /\ isConnected s' = false
      /\ longTradeContract s' = None
      /\ shortTradeContract s' = None
      /\ step cfg (AccountsChanged []) s' = None)
  /\ (forall account accounts,
         step cfg (AccountsChanged (account :: accounts)) s = Some s).
Proof.
  intros Hs Hc.
  assert (Hl : listening s = true).
  { unfold listening. rewrite Hc, (inv_listening s (reachable_Inv cfg s Hs) Hc).
    reflexivity. }
  split.
  - eexists. split; [|split; [reflexivity|]].
    + cbn [step]. rewrite Hl, handle_accountsChanged. reflexivity.
    + repeat split. cbn [step]. unfold listening. cbn.
      now rewrite andb_false_r.
  - intros account accounts. cbn [step].
    rewrite Hl, handle_accountsChanged. reflexivity.
Qed.

Lemma accountsChanged_disconnects_witness :
  exists s,
    steps exampleConfig [Connect grantingWallet] (initial true "09:00:00")
    = Some s
    /\ isConnected s = true
    /\ (exists s',
           step exampleConfig (AccountsChanged []) s = Some s'
           /\ isConnected s' = false
           /\ longTradeContract s' = None
           /\ shortTradeContract s' = None
           /\ step exampleConfig (AccountsChanged []) s' = None)
    /\ step exampleConfig (AccountsChanged ["0xB0B"]) s = Some s.
Proof.
  destruct (steps exampleConfig [Connect grantingWallet]
              (initial true "09:00:00")) as [s|] eqn:Hsteps;
    [|vm_compute in Hsteps; discriminate Hsteps].
  exists s. split; [reflexivity|].
  assert (Hc : isConnected s = true)
    by (vm_compute in Hsteps; injection Hsteps as <-; reflexivity).
  split; [exact Hc|].
  destruct (accountsChanged_disconnects exampleConfig s
              (steps_reachable exampleConfig _ _ s
                 (reachable_initial exampleConfig true "09:00:00") Hsteps) Hc)
    as [(s' & H1 & _ & H2 & H3 & H4 & H5) Hnon].
  split; [|apply Hnon].
  exists s'. repeat split; assumption.
Defined.

(** ** [isRunning] over a run of the dispatcher *)

(** Only [stop] with a timer, the settling of a run and a reload turn
    [isRunning] off. *)
Lemma running_turned_off cfg op s1 s2 :
  step cfg op s1 = Some s2 ->
  isRunning s1 = true -> isRunning s2 = false ->
  (op = Stop /\ executionInterval s1 <> None)
  \/ (exists settled, op = RunSettles settled)
  \/ (exists id, op = ChainChanged id).
Proof.
  intros Hstep Hon Hoff. destruct op; cbn [step] in Hstep.
  - injection Hstep as <-. rewrite handle_connectWallet in Hoff.
    destruct (connectWallet_frame cfg w s1) as (_ & Hrun & _). congruence.
  - injection Hstep as <-. rewrite handle_executeContracts in Hoff.
    destruct (executeContracts_running (longTradeContract s1)
                (shortTradeContract s1) s1) as [[H _]|[H _]]; congruence.
  - injection Hstep as <-.
    destruct (start_frame s1) as (_ & _ & Hrun & _).
    destruct (executeContracts_running (longTradeContract s1)
                (shortTradeContract s1) s1) as [[H _]|[H _]]; congruence.
  - left. split; [reflexivity|]. intros Hnone. injection Hstep as <-.
    rewrite (handle_stop_no_timer s1 Hnone) in Hoff. congruence.
  - injection Hstep as <-. rewrite handle_runOnce, runOnce_exec in Hoff.
    match type of Hoff with
    | isRunning (exec (executeContracts ?l ?sh) ?s) = _ =>
        destruct (executeContracts_running l sh s) as [[H _]|[H _]];
          cbn in H; congruence
    end.
  - destruct (findTimer id s1) as [t|]; [|discriminate].
    injection Hstep as <-. rewrite handle_executeContracts in Hoff.
    destruct (executeContracts_running (seenLong t) (seenShort t) s1)
      as [[H _]|[H _]]; congruence.
  - right. left. now exists settled.
  - destruct (listening s1); [|discriminate]. injection Hstep as <-.
    rewrite handle_accountsChanged in Hoff.
    destruct accounts; cbn in Hoff; congruence.
  - right. right. now exists id.
  - injection Hstep as <-. cbn in Hoff. congruence.
Qed.

(** C7, as stated, fails: [stop] turns [isRunning] off while the run that
    [start] began is still in progress. *)
Lemma running_off_during_run :
  ~ ((forall cfg s, reachable cfg s -> runInProgress s -> isRunning s = true)
     /\ (forall settled s,
            isRunning (exec (executeContracts_resume settled) s) = false)).
Proof.
  intros [H _].
  destruct (steps exampleConfig [Connect grantingWallet; Start; Stop]
              (initial true "09:00:00")) as [s|] eqn:Hsteps;
    [|vm_compute in Hsteps; discriminate Hsteps].
  assert (Hs : reachable exampleConfig s)
    by (apply steps_reachable in Hsteps; [exact Hsteps | apply reachable_initial]).
  specialize (H _ _ Hs).
  vm_compute in Hsteps. injection Hsteps as <-.
  assert (Habs : false = true) by (apply H; unfold runInProgress; cbn; lia).
  discriminate Habs.
Qed.

(** C7, amended.  A run of [executeContracts] with both bindings sets
    [isRunning] and is suspended; from then on [isRunning] stays true until
    [stop] cancels a timer, a run (this one or an overlapping one) settles, or
    the page reloads; and when the run settles, with success or with any
    rejection, it returns normally and [isRunning] is false. *)
Theorem run_sets_and_resets_running cfg longTrade shortTrade s :
  (isRunning (exec (executeContracts (Some longTrade) (Some shortTrade)) s)
   = true
   /\ runInProgress
        (exec (executeContracts (Some longTrade) (Some shortTrade)) s))
  /\ (forall op s1 s2,
         step cfg op s1 = Some s2 ->
         isRunning s1 = true -> isRunning s2 = false ->
         (op = Stop /\ executionInterval s1 <> None)
         \/ (exists settled, op = RunSettles settled)
         \/ (exists id, op = ChainChanged id))
  /\ (forall settled s1,
         fst (executeContracts_resume settled s1) = Normal tt
         /\ isRunning (exec (executeContracts_resume settled) s1) = false
         /\ pendingRuns (exec (executeContracts_resume settled) s1)
            = pred (pendingRuns s1)).
Proof.
  split; [|split].
  - unfold exec, runInProgress.
    rewrite executeContracts_started. cbn. split; [reflexivity | lia].
  - apply running_turned_off.
  - intros settled s1.
    destruct (resume_effect settled s1) as (H1 & H2 & H3 & _).
    repeat split; assumption.
Qed.

Lemma run_sets_and_resets_running_witness :
  exists s s',
    steps exampleConfig [Connect grantingWallet; RunOnce]
      (initial true "09:00:00") = Some s
    /\ isRunning s = true
    /\ step exampleConfig (ClockShows "09:00:01") s = Some s'
    /\ isRunning s' = true
    /\ isRunning (exec (executeContracts_resume
                          (Rejected (rpcError 4001 "User denied"))) s')
       = false.
Proof.
  destruct (steps exampleConfig [Connect grantingWallet; RunOnce]
              (initial true "09:00:00")) as [s|] eqn:Hsteps;
    [|vm_compute in Hsteps; discriminate Hsteps].
  exists s, (set_clock "09:00:01" s).
  assert (Hon : isRunning s = true)
    by (vm_compute in Hsteps; injection Hsteps as <-; reflexivity).
  split; [reflexivity|]. split; [exact Hon|].
  split; [reflexivity|]. split; [exact Hon|].
  exact (proj1 (proj2
           (proj2 (proj2
              (run_sets_and_resets_running exampleConfig
                 {| target := longTradeAddress; abi := longTradeABI;
                    runner := "0xA11CE" |}
                 {| target := shortTradeAddress; abi := shortTradeABI;
                    runner := "0xA11CE" |} s))
              (Rejected (rpcError 4001 "User denied"))
              (set_clock "09:00:01" s)))).
Defined.

(** ** [start] without bindings *)

(** [isRunning] is turned on only by a step that suspends a new run. *)
Lemma running_turned_on cfg op s s' :
  step cfg op s = Some s' ->
  isRunning s = false -> isRunning s' = true ->
  pendingRuns s' = S (pendingRuns s).
Proof.
  intros Hstep Hoff Hon. destruct op; cbn [step] in Hstep.
  - injection Hstep as <-. rewrite handle_connectWallet in Hon.
    destruct (connectWallet_frame cfg w s) as (_ & Hrun & _). congruence.
  - injection Hstep as <-. rewrite handle_executeContracts in *.
    destruct (executeContracts_running (longTradeContract s)
                (shortTradeContract s) s) as [[H _]|[_ H]];
      [congruence | exact H].
  - injection Hstep as <-.
    destruct (start_frame s) as (_ & _ & Hrun & Hp & _). rewrite Hp.
    destruct (executeContracts_running (longTradeContract s)
                (shortTradeContract s) s) as [[H _]|[_ H]];
      [congruence | exact H].
  - injection Hstep as <-. rewrite handle_stop in Hon. unfold exec in Hon.
    destruct (executionInterval s) as [h|] eqn:E.
    + rewrite (stop_timer s h E) in Hon. discriminate Hon.
    + rewrite (stop_no_timer s E) in Hon. cbn in Hon. congruence.
  - injection Hstep as <-. rewrite handle_runOnce, runOnce_exec in *.
    match type of Hon with
    | isRunning (exec (executeContracts ?l ?sh) ?s0) = _ =>
        destruct (executeContracts_running l sh s0) as [[H _]|[_ H]];
          cbn in H; [congruence | exact H]
    end.
  - destruct (findTimer id s) as [t|]; [|discriminate].
    injection Hstep as <-. rewrite handle_executeContracts in *.
    destruct (executeContracts_running (seenLong t) (seenShort t) s)
      as [[H _]|[_ H]]; [congruence | exact H].
  - destruct (pendingRuns s); [discriminate|]. injection Hstep as <-.
    rewrite handle_resume in Hon.
    destruct (resume_effect settled s) as (_ & H & _). congruence.
  - destruct (listening s); [|discriminate]. injection Hstep as <-.
    rewrite handle_accountsChanged in Hon.
    destruct accounts; cbn in Hon; congruence.
  - destruct (listening s); [|discriminate]. injection Hstep as <-.
    discriminate Hon.
  - injection Hstep as <-. cbn in Hon. congruence.
Qed.

Lemma idleTimer_step cfg op s s' :
  idleTimer s -> background op = true -> step cfg op s = Some s' ->
  idleTimer s'.
Proof.
  intros (Hi & Ht & Hr & Hp & Hc) Hb Hstep.
  destruct op; try discriminate Hb; cbn [step] in Hstep.
  - injection Hstep as <-. rewrite handle_connectWallet.
    destruct (connectWallet_frame cfg w s)
      as (Hi' & Hr' & Ht' & _ & Hp' & Hc' & _).
    unfold idleTimer. now rewrite Hi', Hr', Ht', Hp', Hc'.
  - unfold findTimer in Hstep. rewrite Ht in Hstep.
    cbn [find timerId] in Hstep.
    destruct (Pos.eqb 1 id); [|discriminate].
    injection Hstep as <-.
    change (idleTimer (handle (executeContracts None None) s)).
    rewrite handle_executeContracts.
    destruct (executeContracts_guard_frame None None s (or_introl eq_refl))
      as (Hi' & Hr' & Ht' & _ & Hp' & Hc' & _).
    unfold idleTimer. now rewrite Hi', Hr', Ht', Hp', Hc'.
  - destruct (listening s); [|discriminate]. injection Hstep as <-.
    rewrite handle_accountsChanged.
    destruct accounts; repeat split; assumption.
  - injection Hstep as <-. repeat split; assumption.
Qed.

Lemma idleTimer_steps cfg ops s s' :
  idleTimer s -> forallb background ops = true ->
  steps cfg ops s = Some s' -> idleTimer s'.
Proof.
  revert s; induction ops as [|op ops IH]; intros s Hs Hb H; cbn in *.
  - now injection H as <-.
  - apply andb_true_iff in Hb as [Hb1 Hb2].
    destruct (step cfg op s) as [s1|] eqn:E; [|discriminate].
    exact (IH s1 (idleTimer_step cfg op s s1 Hs Hb1 E) Hb2 H).
Qed.

(** C10.  [start] does to [isRunning] exactly what its call of
    [executeContracts] does, and [isRunning] is turned on only by a step that
    suspends a new run.  Called while a binding is absent, [start] still arms
    the interval and leaves [isRunning], the suspended runs and the contract
    calls as they are.  From a fresh page, [start] reaches a state with the
    handle present and [isRunning] false, and this lasts: every tick of the
    interval takes the guard's return, and so do all ticks that follow
    connection attempts, account notifications and the passing of time. *)
Theorem start_never_sets_running cfg :
  (forall s,
      isRunning (handle startIntervalExecution s)
      = isRunning (exec (executeContracts (longTradeContract s)
                           (shortTradeContract s)) s))
  /\ (forall op s s',
         step cfg op s = Some s' ->
         isRunning s = false -> isRunning s' = true ->
         pendingRuns s' = S (pendingRuns s))
  /\ (forall s,
         reachable cfg s ->
         longTradeContract s = None \/ shortTradeContract s = None ->
         exists s',
           step cfg Start s = Some s'
           /\ executionInterval s' = Some (nextTimerId s)
           /\ timers s' = [newTimer s]
           /\ isRunning s' = isRunning s
           /\ pendingRuns s' = pendingRuns s
           /\ contractCalls s' = contractCalls s)
  /\ (forall eth now,
         exists s1,
           step cfg Start (initial eth now) = Some s1
           /\ reachable cfg s1
           /\ executionInterval s1 <> None
           /\ isRunning s1 = false
           /\ forall ops s,
               forallb background ops = true ->
               steps cfg ops s1 = Some s ->
               reachable cfg s
               /\ executionInterval s = executionInterval s1
               /\ timers s = timers s1
               /\ isRunning s = false
               /\ contractCalls s = []
               /\ step cfg (TimerFires 1%positive) s
                  = Some (exec (executeContracts None None) s)).
Proof.
  split; [|split; [|split]].
  - intros s. now destruct (start_frame s) as (_ & _ & H & _).
  - apply running_turned_on.
  - intros s Hs Habsent.
    exists (handle startIntervalExecution s).
    destruct (start_frame s) as (Hi & _ & Hrun & Hp & Hc & _).
    destruct (executeContracts_guard_frame (longTradeContract s)
                (shortTradeContract s) s Habsent)
      as (_ & Hrun' & _ & _ & Hp' & Hc' & _).
    split; [reflexivity|]. split; [exact Hi|].
    split; [apply start_timers, (reachable_Inv cfg s Hs)|].
    split; [congruence|]. split; congruence.
  - intros eth now.
    exists (handle startIntervalExecution (initial eth now)).
    assert (Hs1 : reachable cfg (handle startIntervalExecution (initial eth now)))
      by (apply (reachable_step cfg (initial eth now) Start);
          [apply reachable_initial | reflexivity]).
    assert (Hidle : idleTimer (handle startIntervalExecution (initial eth now)))
      by (repeat split).
    split; [reflexivity|]. split; [exact Hs1|].
    split; [discriminate|]. split; [reflexivity|].
    intros ops s Hb Hsteps.
    destruct (idleTimer_steps cfg ops _ s Hidle Hb Hsteps)
      as (Hi & Ht & Hr & Hp & Hc).
    split; [exact (steps_reachable cfg ops _ s Hs1 Hsteps)|].
    split; [exact Hi|]. split; [exact Ht|]. split; [exact Hr|].
    split; [exact Hc|].
    cbn [step]. unfold findTimer. rewrite Ht. cbn [find timerId Pos.eqb].
    cbn [seenLong seenShort]. now rewrite handle_executeContracts.
Qed.

Lemma start_never_sets_running_witness :
  exists s,
    steps exampleConfig
      [Start; TimerFires 1%positive; Connect grantingWallet; TimerFires 1%positive]
      (initial true "09:00:00") = Some s
    /\ executionInterval s = Some 1%positive
    /\ isRunning s = false
    /\ contractCalls s = [].
Proof.
  destruct (proj2 (proj2 (proj2 (start_never_sets_running exampleConfig)))
              true "09:00:00") as (s1 & Hstart & _ & _ & _ & Hlast).
  destruct (steps exampleConfig
              [TimerFires 1%positive; Connect grantingWallet; TimerFires 1%positive] s1)
    as [s|] eqn:Hsteps.
  - exists s.
    destruct (Hlast [TimerFires 1%positive; Connect grantingWallet;
                     TimerFires 1%positive] s eq_refl Hsteps)
      as (_ & Hi & _ & Hr & Hc & _).
    split; [cbn [steps]; rewrite Hstart; exact Hsteps|].
    split; [|split; assumption].
    rewrite Hi. cbn [step] in Hstart. injection Hstart as <-. reflexivity.
  - cbn [step] in Hstart. injection Hstart as <-.
    vm_compute in Hsteps. discriminate Hsteps.
Defined.

(** ** The network guard inside [connectWallet] *)

Ltac unfold_connect :=
  unfold connectWallet, ensureNetwork, request; unfold_js.

(** The switch fails with a code other than 4902: the connection is given up
    and the error is reported. *)
Lemma connect_switch_rejected cfg w s current switchError :
  ethereum s = true ->
  on_eth_chainId w = Resolved current ->
  current <> chainId cfg ->
  on_switchEthereumChain w = Rejected switchError ->
  thrownCodeIs 4902 switchError = false ->
  connectWallet cfg w s
  = (Normal tt,
     set_isConnecting false
       (set_toasts
          (toasts s ++ [(ToastError, connectionErrorMessage switchError)])
          (set_logs
             (logs s ++
              [clock s ++ ": Attempting to connect wallet...";
               clock s ++ ": Current chain ID: " ++ current;
               clock s ++ ": Switching to Binance Smart Chain...";
               clock s ++ ": Chain switch error: " ++ messageText switchError;
               clock s ++ ": Connection error: "
                 ++ connectionErrorMessage switchError])
             (set_walletRequests
                (walletRequests s ++
                 [Eth_chainId; Wallet_switchEthereumChain (chainId cfg)])
                s)))).
Proof.
  intros He Hc Hne Hsw Hcode. apply String.eqb_neq in Hne.
  unfold_connect.
  rewrite He, Hc. cbn. rewrite Hne. cbn. rewrite Hsw. cbn.
  rewrite Hcode. cbn. repeat rewrite <- app_assoc. reflexivity.
Qed.

(** The switch fails with code 4902 and the request to add the chain fails
    too: the connection is given up with the generic message. *)
Lemma connect_add_rejected cfg w s current switchError addError :
  ethereum s = true ->
  on_eth_chainId w = Resolved current ->
  current <> chainId cfg ->
  on_switchEthereumChain w = Rejected switchError ->
  thrownCodeIs 4902 switchError = true ->
  on_addEthereumChain w = Rejected addError ->
  connectWallet cfg w s
  = (Normal tt,
     set_isConnecting false
       (set_toasts (toasts s ++ [(ToastError, "Error connecting wallet")])
          (set_logs
             (logs s ++
              [clock s ++ ": Attempting to connect wallet...";
               clock s ++ ": Current chain ID: " ++ current;
               clock s ++ ": Switching to Binance Smart Chain...";
               clock s ++ ": Adding Binance Smart Chain to MetaMask...";
               clock s ++ ": Failed to add Binance Smart Chain";
               clock s ++ ": Connection error: Error connecting wallet"])
             (set_walletRequests
                (walletRequests s ++
                 [Eth_chainId; Wallet_switchEthereumChain (chainId cfg);
                  Wallet_addEthereumChain cfg])
                s)))).
Proof.
  intros He Hc Hne Hsw Hcode Hadd. apply String.eqb_neq in Hne.
  unfold_connect.
  rewrite He, Hc. cbn. rewrite Hne. cbn. rewrite Hsw. cbn.
  rewrite Hcode. cbn. rewrite Hadd. cbn.
  repeat rewrite <- app_assoc. reflexivity.
Qed.

(** The switch fails with code 4902 and the chain is added: the accounts are
    requested next, and with an account and a signer the session is
    connected. *)
Lemma connect_add_resolved cfg w s current switchError :
  ethereum s = true ->
  on_eth_chainId w = Resolved current ->
  current <> chainId cfg ->
  on_switchEthereumChain w = Rejected switchError ->
  thrownCodeIs 4902 switchError = true ->
  on_addEthereumChain w = Resolved tt ->
  (exists rest,
      walletRequests (exec (connectWallet cfg w) s)
      = (walletRequests s ++
         [Eth_chainId; Wallet_switchEthereumChain (chainId cfg);
          Wallet_addEthereumChain cfg; Eth_requestAccounts] ++ rest)%list
      /\ filter isAddChain rest = [])
  /\ (forall account accounts signer,
         on_requestAccounts w = Resolved (Some (account :: accounts)) ->
         on_getSigner w = Resolved signer ->
         isConnected (exec (connectWallet cfg w) s) = true
         /\ longTradeContract (exec (connectWallet cfg w) s)
            = Some (longTradeFor signer)
         /\ shortTradeContract (exec (connectWallet cfg w) s)
            = Some (shortTradeFor signer)).
Proof.
  intros He Hc Hne Hsw Hcode Hadd. apply String.eqb_neq in Hne.
  unfold_connect.
  rewrite He, Hc. cbn. rewrite Hne. cbn. rewrite Hsw. cbn.
  rewrite Hcode. cbn. rewrite Hadd. cbn.
  split.
  - destruct (on_requestAccounts w) as [[[|account accounts]|]|e]; cbn;
      try (exists []; repeat rewrite <- app_assoc; split; reflexivity).
    destruct (on_getSigner w) as [signer|e]; cbn;
      exists [GetSigner]; repeat rewrite <- app_assoc; split; reflexivity.
  - intros account accounts signer Hacc Hsig. rewrite Hacc. cbn.
    rewrite Hsig. cbn. repeat split.
Qed.

Lemma addChainRequests_app s s' new :
  walletRequests s' = (walletRequests s ++ new)%list ->
  addChainRequests s'
  = addChainRequests s + List.length (filter isAddChain new).
Proof.
  intros H. unfold addChainRequests.
  now rewrite H, filter_app, length_app.
Qed.

(** C5, as stated, fails: when the switch fails with code 4902 and the
    request to add the chain is rejected, the flow does not continue; the
    accounts are never requested and the session stays disconnected. *)
Lemma connect_stops_when_add_fails :
  ~ (forall cfg w s current switchError,
        ethereum s = true ->
        on_eth_chainId w = Resolved current ->
        current <> chainId cfg ->
        on_switchEthereumChain w = Rejected switchError ->
        thrownCodeIs 4902 switchError = true ->
        addChainRequests (exec (connectWallet cfg w) s)
        = S (addChainRequests s)
        /\ In Eth_requestAccounts
             (walletRequests (exec (connectWallet cfg w) s))).
Proof.
  intros H.
  destruct (H exampleConfig
              (unknownChainWallet (Rejected (rpcError 4001 "User rejected")))
              (initial true "09:00:00") "0x1"
              (rpcError 4902 "Unrecognized chain ID")
              eq_refl eq_refl ltac:(discriminate) eq_refl eq_refl)
    as [_ Hin].
  vm_compute in Hin.
  repeat (destruct Hin as [Hin|Hin]; [discriminate Hin|]).
  exact Hin.
Qed.

(** C5, amended.  During [connectWallet], when the wallet is on another chain
    and the switch request fails with code 4902, exactly one request to add
    the chain is made; if it succeeds the flow continues with the request for
    accounts (and connects the session when an account and a signer are
    granted), and if it fails the connection is given up, with "Failed to
    add Binance Smart Chain" logged and the generic connection error
    reported.  When the switch fails with any other code, no request to add
    the chain is made, the connection is given up, and that error is
    reported: one notification with the message chosen for it, and the log
    entries "Chain switch error" and "Connection error".  In every case
    [isConnecting] ends false. *)
Theorem connect_switch_failure cfg w s current switchError :
  ethereum s = true ->
  on_eth_chainId w = Resolved current ->
  current <> chainId cfg ->
  on_switchEthereumChain w = Rejected switchError ->
  (thrownCodeIs 4902 switchError = true ->
   addChainRequests (exec (connectWallet cfg w) s) = S (addChainRequests s)
   /\ (on_addEthereumChain w = Resolved tt ->
       (exists rest,
           walletRequests (exec (connectWallet cfg w) s)
           = (walletRequests s ++
              [Eth_chainId; Wallet_switchEthereumChain (chainId cfg);
               Wallet_addEthereumChain cfg; Eth_requestAccounts] ++ rest)%list)
       /\ (forall account accounts signer,
              on_requestAccounts w = Resolved (Some (account :: accounts)) ->
              on_getSigner w = Resolved signer ->
              isConnected (exec (connectWallet cfg w) s) = true
              /\ longTradeContract (exec (connectWallet cfg w) s)
                 = Some (longTradeFor signer)
              /\ shortTradeContract (exec (connectWallet cfg w) s)
                 = Some (shortTradeFor signer)))
   /\ (forall addError,
          on_addEthereumChain w = Rejected addError ->
          connectWallet cfg w s
          = (Normal tt,
             set_isConnecting false
               (set_toasts
                  (toasts s ++ [(ToastError, "Error connecting wallet")])
                  (set_logs
                     (logs s ++
                      [clock s ++ ": Attempting to connect wallet...";
                       clock s ++ ": Current chain ID: " ++ current;
                       clock s ++ ": Switching to Binance Smart Chain...";
                       clock s ++ ": Adding Binance Smart Chain to MetaMask...";
                       clock s ++ ": Failed to add Binance Smart Chain";
                       clock s ++ ": Connection error: Error connecting wallet"])
                     (set_walletRequests
                        (walletRequests s ++
                         [Eth_chainId;
                          Wallet_switchEthereumChain (chainId cfg);
                          Wallet_addEthereumChain cfg])
                        s))))))
  /\ (thrownCodeIs 4902 switchError = false ->
      addChainRequests (exec (connectWallet cfg w) s) = addChainRequests s
      /\ connectWallet cfg w s
         = (Normal tt,
            set_isConnecting false
              (set_toasts
                 (toasts s
                  ++ [(ToastError, connectionErrorMessage switchError)])
                 (set_logs
                    (logs s ++
                     [clock s ++ ": Attempting to connect wallet...";
                      clock s ++ ": Current chain ID: " ++ current;
                      clock s ++ ": Switching to Binance Smart Chain...";
                      clock s ++ ": Chain switch error: "
                        ++ messageText switchError;
                      clock s ++ ": Connection error: "
                        ++ connectionErrorMessage switchError])
                    (set_walletRequests
                       (walletRequests s ++
                        [Eth_chainId;
                         Wallet_switchEthereumChain (chainId cfg)])
                       s)))))
  /\ isConnecting (exec (connectWallet cfg w) s) = false.
Proof.
  intros He Hc Hne Hsw. split; [|split].
  - intros Hcode.
    assert (Hfail : forall addError,
               on_addEthereumChain w = Rejected addError ->
               connectWallet cfg w s = _)
      by (intros addError;
          exact (connect_add_rejected cfg w s current switchError addError
                   He Hc Hne Hsw Hcode)).
    split; [|split].
    + destruct (on_addEthereumChain w) as [[]|addError] eqn:Hadd.
      * destruct (connect_add_resolved cfg w s current switchError
                    He Hc Hne Hsw Hcode Hadd) as [(rest & Hreq & Hrest) _].
        rewrite (addChainRequests_app s _ _ Hreq).
        rewrite filter_app, Hrest. cbn. lia.
      * unfold exec. rewrite (Hfail addError eq_refl). cbn [snd].
        erewrite (addChainRequests_app s); [|reflexivity].
        cbn. lia.
    + intros Hadd.
      destruct (connect_add_resolved cfg w s current switchError
                  He Hc Hne Hsw Hcode Hadd) as [(rest & Hreq & _) Hok].
      split; [now exists rest | exact Hok].
    + exact Hfail.
  - intros Hcode.
    pose proof (connect_switch_rejected cfg w s current switchError
                  He Hc Hne Hsw Hcode) as E.
    split; [|exact E]. unfold exec. rewrite E. cbn [snd].
    erewrite (addChainRequests_app s); [|reflexivity].
    cbn. lia.
  - apply String.eqb_neq in Hne. unfold_connect.
    rewrite He, Hc. cbn. rewrite Hne. cbn. rewrite Hsw. cbn.
    destruct (thrownCodeIs 4902 switchError); cbn; [|reflexivity].
    destruct (on_addEthereumChain w) as [[]|addError]; cbn; [|reflexivity].
    destruct (on_requestAccounts w) as [[[|account accounts]|]|e]; cbn;
      try reflexivity.
    destruct (on_getSigner w) as [signer|e]; reflexivity.
Qed.

Lemma connect_switch_failure_witness :
  addChainRequests
    (exec (connectWallet exampleConfig (unknownChainWallet (Resolved tt)))
       (initial true "09:00:00")) = 1
  /\ isConnected
       (exec (connectWallet exampleConfig (unknownChainWallet (Resolved tt)))
          (initial true "09:00:00")) = true
  /\ addChainRequests
       (exec (connectWallet exampleConfig decliningWallet)
          (initial true "09:00:00")) = 0
  /\ toasts (exec (connectWallet exampleConfig decliningWallet)
               (initial true "09:00:00"))
     = [(ToastError, "Connection rejected by user")].
Proof.
  destruct (connect_switch_failure exampleConfig
              (unknownChainWallet (Resolved tt)) (initial true "09:00:00")
              "0x1" (rpcError 4902 "Unrecognized chain ID")
              eq_refl eq_refl ltac:(discriminate) eq_refl)
    as (Hadd & _ & _).
  destruct (Hadd eq_refl) as (Hone & Hok & _).
  destruct (Hok eq_refl) as (_ & Hconn).
  destruct (Hconn "0xA11CE" [] "0xA11CE" eq_refl eq_refl) as (Hc & _).
  destruct (connect_switch_failure exampleConfig decliningWallet
              (initial true "09:00:00") "0x1"
              (rpcError 4001 "User rejected the request.")
              eq_refl eq_refl ltac:(discriminate) eq_refl)
    as (_ & Hother & _).
  destruct (Hother eq_refl) as (Hzero & E).
  split; [exact Hone|]. split; [exact Hc|]. split; [exact Hzero|].
  unfold exec. rewrite E. reflexivity.
Defined.

(** * Further properties of the code *)

(** ** The sanitizer, rule by rule *)

Lemma sanitize_unfold (message : string) :
  sanitizeErrorMessage message
  = if JsString.includes signatureMarker message
    then JsString.replace message signatureMarker "$1"
    else if JsString.includes userDeniedMarker message
    then JsString.replace message userDeniedMarker "Action cancelled"
    else if JsString.includes revertedMarker message
    then JsString.replace message revertedMarker "Transaction failed: $1"
    else "Transaction failed".
Proof.
  unfold sanitizeErrorMessage, patterns, sanitizeLoop. cbn [regex replace].
  now rewrite !JsStringFacts.regexTest_includes.
Qed.

Lemma includes_search (lit message : string) :
  JsString.includes lit message = true ->
  exists before rest,
    JsString.search lit message = Some (before, rest)
    /\ message = before ++ lit ++ rest.
Proof.
  intros H. rewrite JsStringFacts.search_includes in H.
  destruct (JsString.search lit message) as [[before rest]|] eqn:E;
    [|discriminate].
  exists before, rest. split; [reflexivity|].
  now apply JsStringFacts.search_sound.
Qed.

Lemma append_empty (a b : string) : a ++ b = "" -> a = "" /\ b = "".
Proof. destruct a; simpl; [auto | discriminate]. Qed.

Lemma append_assoc (a b c : string) : (a ++ b) ++ c = a ++ b ++ c.
Proof. induction a as [|x a IH]; simpl; [reflexivity | now rewrite IH]. Qed.

Lemma sanitize_no_marker (message : string) :
  JsString.includes signatureMarker message = false ->
  JsString.includes userDeniedMarker message = false ->
  JsString.includes revertedMarker message = false ->
  sanitizeErrorMessage message = "Transaction failed".
Proof. intros Hs Hd Hr. now rewrite sanitize_unfold, Hs, Hd, Hr. Qed.

(** X1.  A message without any of the three markers gives the fixed fallback,
    whatever else it contains. *)
Theorem sanitize_fallback (message : string) :
  unmarked message = true ->
  sanitizeErrorMessage message = "Transaction failed".
Proof.
  unfold unmarked. intros H.
  apply andb_true_iff in H as [H Hr]. apply andb_true_iff in H as [Hs Hd].
  apply negb_true_iff in Hs, Hd, Hr.
  now apply sanitize_no_marker.
Qed.

Lemma sanitize_fallback_witness :
  sanitizeErrorMessage "insufficient funds for gas * price + value"
  = "Transaction failed".
Proof.
  apply (sanitize_fallback "insufficient funds for gas * price + value").
  reflexivity.
Defined.

Lemma append_nil_r (x : string) : x ++ "" = x.
Proof. induction x as [|c x IH]; simpl; [reflexivity | now rewrite IH]. Qed.

Lemma sanitize_signature_found (message before rest : string) :
  JsString.search signatureMarker message = Some (before, rest) ->
  sanitizeErrorMessage message = before ++ rest.
Proof.
  intros E. rewrite sanitize_unfold, JsStringFacts.search_includes, E.
  unfold JsString.replace, JsString.regexExec. rewrite E.
  cbn [JsString.m_before JsString.m_group1 JsString.m_after JsString.expand].
  now rewrite append_nil_r, <- JsStringFacts.dotStar_split.
Qed.

(** X2.  The signature rule comes first and only removes the first occurrence of
    the prefix: the text before it and all the text after it, later lines and
    other markers included, is returned as it is. *)
Theorem sanitize_signature_prefix (message : string) :
  JsString.includes signatureMarker message = true ->
  exists before rest,
    JsString.search signatureMarker message = Some (before, rest)
    /\ message = before ++ signatureMarker ++ rest
    /\ sanitizeErrorMessage message = before ++ rest.
Proof.
  intros H. destruct (includes_search _ _ H) as (before & rest & E & Hm).
  exists before, rest. split; [exact E|]. split; [exact Hm|].
  now apply sanitize_signature_found.
Qed.

Lemma sanitize_signature_prefix_witness :
  exists before rest,
    JsString.search signatureMarker
      "MetaMask Tx Signature: User denied. ethers-user-denied: x"
    = Some (before, rest)
    /\ "MetaMask Tx Signature: User denied. ethers-user-denied: x"
       = before ++ signatureMarker ++ rest
    /\ sanitizeErrorMessage
         "MetaMask Tx Signature: User denied. ethers-user-denied: x"
       = before ++ rest.
Proof.
  apply (sanitize_signature_prefix
           "MetaMask Tx Signature: User denied. ethers-user-denied: x").
  reflexivity.
Defined.

(** X3.  Without the two earlier markers, the first "execution reverted: " is
    replaced by "Transaction failed: " and everything around it is kept. *)
Theorem sanitize_reverted (message : string) :
  JsString.includes signatureMarker message = false ->
  JsString.includes userDeniedMarker message = false ->
  JsString.includes revertedMarker message = true ->
  exists before rest,
    JsString.search revertedMarker message = Some (before, rest)
    /\ message = before ++ revertedMarker ++ rest
    /\ sanitizeErrorMessage message
       = before ++ "Transaction failed: " ++ rest.
Proof.
  intros Hs Hd H. destruct (includes_search _ _ H) as (before & rest & E & Hm).
  exists before, rest. split; [exact E|]. split; [exact Hm|].
  rewrite sanitize_unfold, Hs, Hd, H.
  unfold JsString.replace, JsString.regexExec. rewrite E.
  cbn [JsString.m_before JsString.m_group1 JsString.m_after JsString.expand].
  f_equal. cbn [append]. do 20 f_equal.
  now rewrite append_nil_r, <- JsStringFacts.dotStar_split.
Qed.

Lemma sanitize_reverted_witness :
  exists before rest,
    JsString.search revertedMarker "VM: execution reverted: K"
    = Some (before, rest)
    /\ "VM: execution reverted: K" = before ++ revertedMarker ++ rest
    /\ sanitizeErrorMessage "VM: execution reverted: K"
       = before ++ "Transaction failed: " ++ rest.
Proof.
  apply (sanitize_reverted "VM: execution reverted: K"); reflexivity.
Defined.

(** X4.  The sanitizer returns the empty string for exactly one input: the bare
    signature prefix. *)
Theorem sanitize_empty_result (message : string) :
  sanitizeErrorMessage message = "" <-> message = signatureMarker.
Proof.
  split.
  - intros Hout.
    destruct (JsString.includes signatureMarker message) eqn:Hs.
    + destruct (includes_search _ _ Hs) as (before & rest & E & Hm).
      rewrite (sanitize_signature_found message before rest E) in Hout.
      apply append_empty in Hout as [-> ->]. exact Hm.
    + rewrite sanitize_unfold, Hs in Hout.
      destruct (JsString.includes userDeniedMarker message) eqn:Hd.
      * destruct (includes_search _ _ Hd) as (before & rest & E & _).
        unfold JsString.replace, JsString.regexExec in Hout. rewrite E in Hout.
        apply append_empty in Hout as [_ Hout]. discriminate Hout.
      * destruct (JsString.includes revertedMarker message) eqn:Hr;
          [|discriminate Hout].
        destruct (includes_search _ _ Hr) as (before & rest & E & _).
        unfold JsString.replace, JsString.regexExec in Hout. rewrite E in Hout.
        apply append_empty in Hout as [_ Hout]. discriminate Hout.
  - intros ->. reflexivity.
Qed.

Lemma sanitize_empty_result_witness :
  sanitizeErrorMessage signatureMarker = "".
Proof. exact (proj2 (sanitize_empty_result signatureMarker) eq_refl). Defined.

(** ** The message of a failed run *)

(** X5.  Unless the error carries a nested provider message with one of the three
    markers, the message shown for a failed run is one of four fixed texts:
    the error's own [message] and [reason] are never shown. *)
Theorem executionErrorMessage_fixed (error : Thrown) :
  (forall err nested,
      error = ThrownObject err ->
      err_info_error_message err = Some nested ->
      unmarked nested = true) ->
  In (executionErrorMessage error)
    ["You rejected the transaction"; "You denied the transaction";
     "Transaction was rejected"; "Transaction failed"].
Proof.
  intros H. destruct error as [err|]; [|cbn; tauto].
  unfold executionErrorMessage.
  destruct (codeIs 4001 err || reasonIs "rejected" err); [cbn; tauto|].
  destruct (messageIncludes "user denied transaction" err); [cbn; tauto|].
  destruct (err_info_error_message err) as [[|c nested]|] eqn:E;
    [cbn; tauto | | cbn; tauto].
  pose proof (H err _ eq_refl E) as Hu. unfold unmarked in Hu.
  apply andb_true_iff in Hu as [Hu Hr]. apply andb_true_iff in Hu as [Hs Hd].
  apply negb_true_iff in Hs, Hd, Hr.
  rewrite (sanitize_no_marker _ Hs Hd Hr). cbn. tauto.
Qed.

Lemma executionErrorMessage_fixed_witness :
  In (executionErrorMessage
        (ThrownObject
           {| err_code := Some (CodeString "UNKNOWN_ERROR");
              err_reason := None;
              err_message := Some "could not coalesce error";
              err_info_error_message := Some "Internal JSON-RPC error." |}))
    ["You rejected the transaction"; "You denied the transaction";
     "Transaction was rejected"; "Transaction failed"].
Proof.
  apply executionErrorMessage_fixed.
  intros err nested Herr Hnested. injection Herr as <-.
  injection Hnested as <-. reflexivity.
Defined.

(** ** [connectWallet] on all its paths *)

Lemma connectionErrorMessage_fixed error :
  In (ToastError, connectionErrorMessage error) connectNotifications.
Proof.
  unfold connectionErrorMessage, connectNotifications.
  destruct error as [err|]; [|cbn; tauto].
  destruct (codeIs 4001 err); [cbn; tauto|].
  destruct (messageIncludes "user rejected request" err); [cbn; tauto|].
  destruct (messageIncludes "already pending" err); cbn; tauto.
Qed.

(** One more case distinction along the run of [connectWallet]. *)
Ltac connect_case :=
  match goal with
  | |- context [ethereum ?s] => destruct (ethereum s) eqn:?
  | |- context [on_eth_chainId ?w] =>
      destruct (on_eth_chainId w) as [?|?] eqn:?
  | |- context [String.eqb ?a ?b] => destruct (String.eqb a b) eqn:?
  | |- context [on_switchEthereumChain ?w] =>
      destruct (on_switchEthereumChain w) as [[]|?] eqn:?
  | |- context [thrownCodeIs 4902 ?e] => destruct (thrownCodeIs 4902 e) eqn:?
  | |- context [on_addEthereumChain ?w] =>
      destruct (on_addEthereumChain w) as [[]|?] eqn:?
  | |- context [on_requestAccounts ?w] =>
      destruct (on_requestAccounts w) as [[[|? ?]|]|?] eqn:?
  | |- context [on_getSigner ?w] => destruct (on_getSigner w) as [?|?] eqn:?
  end; cbn.

Ltac pick_member := cbn; repeat first [left; reflexivity | right].

(** X6.  Every run of [connectWallet] shows exactly one notification, with one of
    five fixed texts: no text of a wallet error reaches a notification. *)
Theorem connectWallet_one_notification cfg w s :
  exists t,
    toasts (exec (connectWallet cfg w) s) = (toasts s ++ [t])%list
    /\ In t connectNotifications.
Proof.
  unfold_connect. repeat connect_case.
  all: eexists; (split; [reflexivity|]).
  all: try apply connectionErrorMessage_fixed; cbn; tauto.
Qed.

(** X7.  Every failure inside [connectWallet] is caught: the function returns
    normally, and whenever a wallet is present [isConnecting] is false when
    it returns. *)
Theorem connectWallet_always_returns cfg w s :
  fst (connectWallet cfg w s) = Normal tt
  /\ (ethereum s = true -> isConnecting (exec (connectWallet cfg w) s) = false).
Proof.
  unfold_connect. repeat connect_case.
  all: split; [reflexivity | intros; reflexivity || discriminate].
Qed.

Lemma connectWallet_always_returns_witness :
  isConnecting
    (exec (connectWallet exampleConfig decliningWallet)
       (set_isConnecting true (initial true "09:00:00"))) = false.
Proof.
  exact (proj2 (connectWallet_always_returns exampleConfig decliningWallet
                  (set_isConnecting true (initial true "09:00:00")))
           eq_refl).
Defined.

(** X8.  One [connectWallet] sends the wallet one of ten sequences of requests:
    every request at most once, the request to add the chain only after a
    switch request, and the signer only after the accounts. *)
Theorem connectWallet_requests cfg w s :
  exists new,
    walletRequests (exec (connectWallet cfg w) s)
    = (walletRequests s ++ new)%list
    /\ In new (connectRequestSequences cfg).
Proof.
  unfold_connect. repeat connect_case.
  all: repeat rewrite <- app_assoc; cbn [app].
  all: try (exists []; rewrite app_nil_r; split; [reflexivity | pick_member]).
  all: eexists; (split; [reflexivity | pick_member]).
Qed.

(** X9.  On the target chain already, an absent or empty account list ends the
    connection: no switch and no signer is asked for, the session stays as it
    was, and the generic error is logged and shown. *)
Theorem connectWallet_no_accounts cfg w s :
  ethereum s = true ->
  on_eth_chainId w = Resolved (chainId cfg) ->
  on_requestAccounts w = Resolved None
  \/ on_requestAccounts w = Resolved (Some []) ->
  connectWallet cfg w s
  = (Normal tt,
     set_isConnecting false
       (set_toasts (toasts s ++ [(ToastError, "Error connecting wallet")])
          (set_logs
             (logs s ++
              [clock s ++ ": Attempting to connect wallet...";
               clock s ++ ": Current chain ID: " ++ chainId cfg;
               clock s ++ ": Requesting accounts...";
               clock s ++ ": Connection error: Error connecting wallet"])
             (set_walletRequests
                (walletRequests s ++ [Eth_chainId; Eth_requestAccounts])
                s)))).
Proof.
  intros He Hc Hacc. unfold_connect.
  rewrite He, Hc. cbn. rewrite String.eqb_refl. cbn.
  destruct Hacc as [-> | ->]; cbn; repeat rewrite <- app_assoc; reflexivity.
Qed.

Lemma connectWallet_no_accounts_witness :
  isConnected
    (exec (connectWallet exampleConfig accountlessWallet)
       (initial true "09:00:00")) = false.
Proof.
  unfold exec.
  rewrite (connectWallet_no_accounts exampleConfig accountlessWallet
             (initial true "09:00:00") eq_refl eq_refl (or_intror eq_refl)).
  reflexivity.
Defined.

(** X10.  On the target chain already, with an account granted and a signer
    obtained, the session is connected: both bindings are built on that
    signer, only the first account is logged, and no switch is asked for. *)
Theorem connectWallet_connects cfg w s account accounts signer :
  ethereum s = true ->
  on_eth_chainId w = Resolved (chainId cfg) ->
  on_requestAccounts w = Resolved (Some (account :: accounts)) ->
  on_getSigner w = Resolved signer ->
  connectWallet cfg w s
  = (Normal tt,
     set_isConnecting false
       (set_toasts
          (toasts s ++ [(ToastSuccess, "Wallet connected to BSC successfully")])
          (set_logs
             (logs s ++
              [clock s ++ ": Attempting to connect wallet...";
               clock s ++ ": Current chain ID: " ++ chainId cfg;
               clock s ++ ": Requesting accounts...";
               clock s ++ ": Connected account: " ++ account;
               clock s ++ ": Wallet connected successfully"])
             (set_walletRequests
                (walletRequests s
                 ++ [Eth_chainId; Eth_requestAccounts; GetSigner])
                (set_isConnected true
                   (set_shortTradeContract (Some (shortTradeFor signer))
                      (set_longTradeContract (Some (longTradeFor signer))
                         s))))))).
Proof.
  intros He Hc Hacc Hsig. unfold_connect.
  rewrite He, Hc. cbn. rewrite String.eqb_refl. cbn.
  rewrite Hacc. cbn. rewrite Hsig. cbn.
  repeat rewrite <- app_assoc. reflexivity.
Qed.

Lemma connectWallet_connects_witness :
  longTradeContract
    (exec (connectWallet exampleConfig grantingWallet)
       (initial true "09:00:00"))
  = Some (longTradeFor "0xA11CE").
Proof.
  unfold exec.
  rewrite (connectWallet_connects exampleConfig grantingWallet
             (initial true "09:00:00") "0xA11CE" [] "0xA11CE"
             eq_refl eq_refl eq_refl eq_refl).
  reflexivity.
Defined.

(** ** The session, the bindings and the contract calls *)

Lemma Wiring_initial eth now : Wiring (initial eth now).
Proof.
  split; cbn; [split; reflexivity | tauto | now exists []].
Qed.

(** [Wiring] looks at five fields only. *)
Lemma Wiring_same s s' :
  isConnected s' = isConnected s ->
  longTradeContract s' = longTradeContract s ->
  shortTradeContract s' = shortTradeContract s ->
  timers s' = timers s ->
  contractCalls s' = contractCalls s ->
  Wiring s -> Wiring s'.
Proof.
  intros Hc Hl Hs Ht Hcalls [H1 H2 H3].
  split; rewrite ?Hc, ?Hl, ?Hs, ?Ht, ?Hcalls; assumption.
Qed.

Lemma wired_session s :
  Wiring s -> wired (longTradeContract s) (shortTradeContract s).
Proof.
  intros [H _ _]. destruct (isConnected s); [right | left]; exact H.
Qed.

Lemma calls_extend signers signer calls :
  calls = flat_map callsFor signers ->
  (calls ++ callsFor signer)%list = flat_map callsFor (signers ++ [signer]).
Proof. intros ->. rewrite flat_map_app. reflexivity. Qed.

Lemma executeContracts_session long short s :
  isConnected (exec (executeContracts long short) s) = isConnected s
  /\ longTradeContract (exec (executeContracts long short) s)
     = longTradeContract s
  /\ shortTradeContract (exec (executeContracts long short) s)
     = shortTradeContract s
  /\ timers (exec (executeContracts long short) s) = timers s.
Proof. destruct long, short; repeat split. Qed.

(** What a call of [executeContracts] adds to the contract calls: nothing, or
    the two calls on the signer of its bindings. *)
Lemma executeContracts_calls long short s :
  wired long short ->
  (long = None /\ short = None
   /\ contractCalls (exec (executeContracts long short) s) = contractCalls s)
  \/ (exists signer,
         boundTo signer long short
         /\ contractCalls (exec (executeContracts long short) s)
            = (contractCalls s ++ callsFor signer)%list
         /\ isRunning (exec (executeContracts long short) s) = true
         /\ pendingRuns (exec (executeContracts long short) s)
            = S (pendingRuns s)).
Proof.
  intros [[-> ->]|(signer & -> & ->)].
  - left. repeat split.
  - right. exists signer. unfold exec. rewrite executeContracts_started.
    repeat split.
Qed.

Lemma Wiring_executeContracts long short s :
  wired long short -> Wiring s -> Wiring (exec (executeContracts long short) s).
Proof.
  intros Hw HW. pose proof HW as [H1 H2 (signers & H3)].
  destruct (executeContracts_session long short s) as (Hc & Hl & Hs & Ht).
  destruct (executeContracts_calls long short s Hw)
    as [(_ & _ & Hcalls)|(signer & _ & Hcalls & _)].
  - exact (Wiring_same s _ Hc Hl Hs Ht Hcalls HW).
  - split; rewrite ?Hc, ?Hl, ?Hs, ?Ht; try assumption.
    exists (signers ++ [signer])%list. rewrite Hcalls.
    now apply calls_extend.
Qed.

Lemma connectWallet_session cfg w s :
  (isConnected (exec (connectWallet cfg w) s) = isConnected s
   /\ longTradeContract (exec (connectWallet cfg w) s) = longTradeContract s
   /\ shortTradeContract (exec (connectWallet cfg w) s)
      = shortTradeContract s)
  \/ (exists signer,
         isConnected (exec (connectWallet cfg w) s) = true
         /\ boundTo signer (longTradeContract (exec (connectWallet cfg w) s))
              (shortTradeContract (exec (connectWallet cfg w) s))).
Proof.
  unfold_connect. repeat connect_case.
  all: first [ left; repeat split; reflexivity
             | right; eexists; repeat split; reflexivity ].
Qed.

Lemma start_session s :
  longTradeContract (handle startIntervalExecution s) = longTradeContract s
  /\ shortTradeContract (handle startIntervalExecution s)
     = shortTradeContract s.
Proof.
  unfold_js.
  destruct (executionInterval s) as [h|] eqn:Eh,
    (longTradeContract s) eqn:El, (shortTradeContract s) eqn:Es; cbn.
  all: rewrite ?Eh; cbn.
  all: try (destruct (Pos.eqb h (nextTimerId s)); cbn).
  all: split; assumption.
Qed.

Lemma resume_session settled s :
  longTradeContract (exec (executeContracts_resume settled) s)
  = longTradeContract s
  /\ shortTradeContract (exec (executeContracts_resume settled) s)
     = shortTradeContract s.
Proof. destruct settled as [[]|e]; split; reflexivity. Qed.

Lemma findTimer_In id s t : findTimer id s = Some t -> In t (timers s).
Proof. unfold findTimer. intros H. now apply find_some in H. Qed.

Lemma step_Wiring cfg op s s' :
  Inv s -> Wiring s -> step cfg op s = Some s' -> Wiring s'.
Proof.
  intros HI HW Hstep. pose proof HW as [H1 H2 H3].
  destruct op; cbn [step] in Hstep.
  - (* Connect *)
    injection Hstep as <-. rewrite handle_connectWallet.
    destruct (connectWallet_frame cfg w s) as (_ & _ & Ht & _ & _ & Hc & _).
    destruct (connectWallet_session cfg w s)
      as [(Hcon & Hl & Hs)|(signer & Hcon & Hb)].
    + exact (Wiring_same s _ Hcon Hl Hs Ht Hc HW).
    + split; rewrite ?Hcon, ?Ht, ?Hc; try assumption. now exists signer.
  - (* Execute *)
    injection Hstep as <-. rewrite handle_executeContracts.
    apply Wiring_executeContracts; [now apply wired_session | exact HW].
  - (* Start *)
    injection Hstep as <-.
    destruct (start_frame s) as (_ & _ & _ & _ & Hcalls & Hc & _).
    destruct (start_session s) as (Hl & Hs).
    pose proof (start_timers s (inv_armed s HI)) as Ht.
    pose proof (Wiring_executeContracts _ _ s (wired_session s HW) HW)
      as [_ _ H3'].
    split; rewrite ?Hc, ?Hl, ?Hs, ?Ht, ?Hcalls; try assumption.
    intros t [<-|[]]. cbn. now apply wired_session.
  - (* Stop *)
    injection Hstep as <-. rewrite handle_stop. unfold exec.
    destruct (executionInterval s) as [h|] eqn:E.
    + rewrite (stop_timer s h E). split; cbn; try assumption.
      intros t Ht. apply H2. now apply In_filter_keep in Ht.
    + now rewrite (stop_no_timer s E).
  - (* RunOnce *)
    injection Hstep as <-. rewrite handle_runOnce, runOnce_exec.
    apply Wiring_executeContracts; [now apply wired_session|].
    split; cbn; assumption.
  - (* TimerFires *)
    destruct (findTimer id s) as [t|] eqn:E; [|discriminate].
    injection Hstep as <-. rewrite handle_executeContracts.
    apply Wiring_executeContracts; [|exact HW].
    apply H2. now apply (findTimer_In id).
  - (* RunSettles *)
    destruct (pendingRuns s); [discriminate|].
    injection Hstep as <-. rewrite handle_resume.
    destruct (resume_effect settled s)
      as (_ & _ & _ & _ & Ht & Hc & _ & Hcalls & _).
    destruct (resume_session settled s) as (Hl & Hs).
    exact (Wiring_same s _ Hc Hl Hs Ht Hcalls HW).
  - (* AccountsChanged *)
    destruct (listening s); [|discriminate].
    injection Hstep as <-. rewrite handle_accountsChanged.
    destruct accounts as [|a accounts]; [|exact HW].
    split; cbn; [split; reflexivity | assumption | assumption].
  - (* ChainChanged *)
    destruct (listening s); [|discriminate].
    injection Hstep as <-. split; cbn; [split; reflexivity | tauto | exact H3].
  - (* ClockShows *)
    injection Hstep as <-. split; cbn; assumption.
Qed.

Lemma reachable_Wiring cfg s : reachable cfg s -> Wiring s.
Proof.
  induction 1 as [eth now | s op s' Hs IH Hstep].
  - apply Wiring_initial.
  - exact (step_Wiring cfg op s s' (reachable_Inv cfg s Hs) IH Hstep).
Qed.

(** X11.  In every reachable state the bindings are present exactly when the
    session is connected, and then both are built on one signer, at the two
    fixed addresses. *)
Theorem session_bindings cfg s :
  reachable cfg s ->
  (isConnected s = true ->
   exists signer,
     longTradeContract s = Some (longTradeFor signer)
     /\ shortTradeContract s = Some (shortTradeFor signer))
  /\ (isConnected s = false ->
      longTradeContract s = None /\ shortTradeContract s = None).
Proof.
  intros Hs. destruct (reachable_Wiring cfg s Hs) as [H _ _].
  destruct (isConnected s); split; intros Hc; try discriminate; exact H.
Qed.

Lemma session_bindings_witness :
  exists s,
    steps exampleConfig [Connect grantingWallet; AccountsChanged []]
      (initial true "09:00:00") = Some s
    /\ longTradeContract s = None /\ shortTradeContract s = None.
Proof.
  destruct (steps exampleConfig [Connect grantingWallet; AccountsChanged []]
              (initial true "09:00:00")) as [s|] eqn:Hsteps;
    [|vm_compute in Hsteps; discriminate Hsteps].
  exists s. split; [reflexivity|].
  apply (session_bindings exampleConfig s).
  - exact (steps_reachable exampleConfig _ _ s
             (reachable_initial exampleConfig true "09:00:00") Hsteps).
  - vm_compute in Hsteps. injection Hsteps as <-. reflexivity.
Defined.

(** X12.  Every contract call the component ever makes is one of a pair: the long
    contract then the short contract at the two fixed addresses, both on the
    same signer and both with a gas price of 5 gwei and a gas limit of
    500000. *)
Theorem contract_calls_paired cfg s :
  reachable cfg s ->
  exists signers,
    contractCalls s
    = flat_map
        (fun signer =>
           [({| target := longTradeAddress; abi := longTradeABI;
                runner := signer |},
             {| gasPrice := 5000000000; gasLimit := 500000 |});
            ({| target := shortTradeAddress; abi := shortTradeABI;
                runner := signer |},
             {| gasPrice := 5000000000; gasLimit := 500000 |})])
        signers.
Proof.
  intros Hs. destruct (reachable_Wiring cfg s Hs) as [_ _ (signers & H)].
  exists signers. exact H.
Qed.

Lemma contract_calls_paired_witness :
  exists s signers,
    steps exampleConfig [Connect grantingWallet; Start; TimerFires 1%positive]
      (initial true "09:00:00") = Some s
    /\ contractCalls s = flat_map callsFor signers.
Proof.
  destruct (steps exampleConfig
              [Connect grantingWallet; Start; TimerFires 1%positive]
              (initial true "09:00:00")) as [s|] eqn:Hsteps;
    [|vm_compute in Hsteps; discriminate Hsteps].
  destruct (contract_calls_paired exampleConfig s
              (steps_reachable exampleConfig _ _ s
                 (reachable_initial exampleConfig true "09:00:00") Hsteps))
    as (signers & H).
  exists s, signers. split; [reflexivity | exact H].
Defined.

(** ** The log and the other records only grow *)

Ltac record_grows :=
  first [ exists []; rewrite app_nil_r; reflexivity | eexists; reflexivity ].

Ltac solve_extends :=
  unfold extends; cbn; repeat rewrite <- app_assoc;
  (split; [|split; [|split]]); record_grows.

Lemma extends_refl s : extends s s.
Proof. solve_extends. Qed.

Lemma extends_trans s1 s2 s3 : extends s1 s2 -> extends s2 s3 -> extends s1 s3.
Proof.
  intros ((a1 & H1) & (b1 & H2) & (c1 & H3) & (d1 & H4))
         ((a2 & K1) & (b2 & K2) & (c2 & K3) & (d2 & K4)).
  unfold extends. rewrite K1, K2, K3, K4, H1, H2, H3, H4.
  repeat rewrite <- app_assoc. repeat split; eexists; reflexivity.
Qed.

Ltac keeps_extends Hr Ht :=
  lazymatch goal with
  | |- Keeps _ (bind _ _) => apply (keeps_bind _ Ht); [|intros ?]
  | |- Keeps _ (tryCatch _ _) => apply (keeps_tryCatch _ Ht); [|intros ?]
  | |- Keeps _ (tryFinally _ _) => apply (keeps_tryFinally _ Ht)
  | |- Keeps _ (ret _) => apply (keeps_ret _ Hr)
  | |- Keeps _ (throw _) => apply (keeps_throw _ Hr)
  | |- Keeps _ get => apply (keeps_get _ Hr)
  | |- Keeps _ (await _) => apply (keeps_await _ Hr)
  | |- Keeps _ (modify _) => apply keeps_modify; intros ?; solve_extends
  | |- Keeps _ (if ?b then _ else _) => destruct b
  | |- Keeps _ (match ?x with _ => _ end) => destruct x
  end.

Lemma connectWallet_extends cfg w : Keeps extends (connectWallet cfg w).
Proof.
  pose proof extends_refl as Hr. pose proof extends_trans as Ht.
  unfold connectWallet, ensureNetwork, request, addLog, toast,
    setLongTradeContract, setShortTradeContract, setIsConnected,
    setIsConnecting.
  repeat keeps_extends Hr Ht.
Qed.

Lemma executeContracts_extends long short s :
  extends s (exec (executeContracts long short) s).
Proof. destruct long, short; solve_extends. Qed.

Lemma start_extends s : extends s (handle startIntervalExecution s).
Proof.
  unfold_js.
  destruct (executionInterval s) as [h|] eqn:Eh,
    (longTradeContract s), (shortTradeContract s); cbn.
  all: rewrite ?Eh; cbn.
  all: try (destruct (Pos.eqb h (nextTimerId s)); cbn).
  all: solve_extends.
Qed.

(** X13.  Every step but a reload only appends to the log, to the notifications,
    to the requests sent to the wallet and to the contract calls: no entry is
    ever removed, reordered or rewritten.  A reload empties the log and the
    notifications, the entry it has just logged included. *)
Theorem records_append_only cfg op s s' :
  step cfg op s = Some s' ->
  ((forall id, op <> ChainChanged id) -> extends s s')
  /\ (forall id, op = ChainChanged id ->
        logs s' = [] /\ toasts s' = []
        /\ walletRequests s' = walletRequests s
        /\ contractCalls s' = contractCalls s).
Proof.
  intros Hstep. split.
  - intros Hop. destruct op; cbn [step] in Hstep.
    + injection Hstep as <-. rewrite handle_connectWallet.
      apply connectWallet_extends.
    + injection Hstep as <-. rewrite handle_executeContracts.
      apply executeContracts_extends.
    + injection Hstep as <-. apply start_extends.
    + injection Hstep as <-. rewrite handle_stop. unfold exec.
      destruct (executionInterval s) as [h|] eqn:E.
      * rewrite (stop_timer s h E). solve_extends.
      * rewrite (stop_no_timer s E). apply extends_refl.
    + injection Hstep as <-. rewrite handle_runOnce, runOnce_exec.
      eapply extends_trans; [|apply executeContracts_extends].
      solve_extends.
    + destruct (findTimer id s) as [t|]; [|discriminate].
      injection Hstep as <-. rewrite handle_executeContracts.
      apply executeContracts_extends.
    + destruct (pendingRuns s); [discriminate|]. injection Hstep as <-.
      rewrite handle_resume. destruct settled as [[]|e]; solve_extends.
    + destruct (listening s); [|discriminate]. injection Hstep as <-.
      rewrite handle_accountsChanged. destruct accounts; solve_extends.
    + now destruct (Hop id).
    + injection Hstep as <-. solve_extends.
  - intros id ->. cbn [step] in Hstep.
    destruct (listening s); [|discriminate]. injection Hstep as <-.
    repeat split.
Qed.

Lemma records_append_only_witness :
  exists s s',
    steps exampleConfig [Connect grantingWallet; RunOnce]
      (initial true "09:00:00") = Some s
    /\ step exampleConfig (RunSettles (Resolved tt)) s = Some s'
    /\ extends s s'.
Proof.
  destruct (steps exampleConfig [Connect grantingWallet; RunOnce]
              (initial true "09:00:00")) as [s|] eqn:Hsteps;
    [|vm_compute in Hsteps; discriminate Hsteps].
  destruct (step exampleConfig (RunSettles (Resolved tt)) s) as [s'|] eqn:E.
  - exists s, s'. split; [reflexivity|]. split; [exact E|].
    apply (proj1 (records_append_only exampleConfig _ s s' E)).
    intros id H. discriminate H.
  - vm_compute in Hsteps. injection Hsteps as <-. discriminate E.
Defined.

(** ** Stopping, running once and unmounting *)

Lemma single_timer s t :
  Inv s -> In t (timers s) -> timers s = [t].
Proof.
  intros [Ha _ _ _] Hin. unfold armed in Ha.
  destruct (timers s) as [|t0 [|t1 ts]]; [destruct Hin | |].
  - destruct Hin as [->|[]]. reflexivity.
  - destruct (executionInterval s); discriminate Ha.
Qed.

(** X14.  [stop] with a timer leaves no interval armed, so no tick can follow it;
    it does not touch the suspended runs, which still settle afterwards, and
    it makes no contract call. *)
Theorem stop_blocks_ticks cfg s h :
  reachable cfg s ->
  executionInterval s = Some h ->
  exists s',
    step cfg Stop s = Some s'
    /\ timers s' = []
    /\ executionInterval s' = None
    /\ (forall id, step cfg (TimerFires id) s' = None)
    /\ isRunning s' = false
    /\ pendingRuns s' = pendingRuns s
    /\ contractCalls s' = contractCalls s
    /\ (runInProgress s ->
        forall settled, step cfg (RunSettles settled) s' <> None).
Proof.
  intros Hs Hh. pose proof (reachable_Inv cfg s Hs) as HI.
  exists (handle stopExecution s). split; [reflexivity|].
  rewrite handle_stop. unfold exec. rewrite (stop_timer s h Hh). cbn.
  rewrite (armed_clear s h (inv_armed s HI) Hh).
  repeat split.
  unfold runInProgress. intros Hp settled.
  destruct (pendingRuns s); [lia | discriminate].
Qed.

Lemma stop_blocks_ticks_witness :
  exists s s',
    steps exampleConfig [Connect grantingWallet; Start]
      (initial true "09:00:00") = Some s
    /\ step exampleConfig Stop s = Some s'
    /\ step exampleConfig (TimerFires 1%positive) s' = None
    /\ step exampleConfig (RunSettles (Resolved tt)) s' <> None.
Proof.
  destruct (steps exampleConfig [Connect grantingWallet; Start]
              (initial true "09:00:00")) as [s|] eqn:Hsteps;
    [|vm_compute in Hsteps; discriminate Hsteps].
  assert (Hs : reachable exampleConfig s)
    by exact (steps_reachable exampleConfig _ _ s
                (reachable_initial exampleConfig true "09:00:00") Hsteps).
  assert (Hh : executionInterval s = Some 1%positive)
    by (vm_compute in Hsteps; injection Hsteps as <-; reflexivity).
  assert (Hp : runInProgress s)
    by (vm_compute in Hsteps; injection Hsteps as <-;
        unfold runInProgress; cbn; lia).
  destruct (stop_blocks_ticks exampleConfig s 1%positive Hs Hh)
    as (s' & Hstop & _ & _ & Hticks & _ & _ & _ & Hsettle).
  exists s, s'. split; [reflexivity|]. split; [exact Hstop|].
  split; [apply Hticks | apply (Hsettle Hp)].
Defined.

(** X15.  [runOnce] with bindings, followed by the settling of its run: the timer
    and its handle are as before, [isRunning] is false again, the two calls
    were made, and the log gained three entries. *)
Theorem runOnce_then_settles cfg s signer settled :
  boundTo signer (longTradeContract s) (shortTradeContract s) ->
  exists s1 s2,
    step cfg RunOnce s = Some s1
    /\ isRunning s1 = true
    /\ step cfg (RunSettles settled) s1 = Some s2
    /\ isRunning s2 = false
    /\ pendingRuns s2 = pendingRuns s
    /\ executionInterval s2 = executionInterval s
    /\ timers s2 = timers s
    /\ contractCalls s2 = (contractCalls s ++ callsFor signer)%list
    /\ logs s2
       = (logs s ++
          [(clock s ++ ": Executing contracts once")%string;
           (clock s ++ ": Executing contracts...")%string;
           (clock s ++ ": "
              ++ match settled with
                 | Resolved _ => "Flash loans initiated successfully!"
                 | Rejected error =>
                     "Execution error: " ++ executionErrorMessage error
                 end)%string])%list.
Proof.
  intros [Hl Hsh].
  assert (E1 : handle runOnce s
               = snd (executeContracts (Some (longTradeFor signer))
                        (Some (shortTradeFor signer))
                        (set_toasts
                           (toasts s ++ [(ToastPlain, "Executing contracts once")])
                           (set_logs
                              (logs s ++ [clock s ++ ": Executing contracts once"])
                              s))))
    by (rewrite handle_runOnce, runOnce_exec, Hl, Hsh; reflexivity).
  rewrite executeContracts_started in E1. cbn [snd] in E1.
  exists (handle runOnce s),
    (exec (executeContracts_resume settled) (handle runOnce s)).
  split; [reflexivity|]. rewrite E1.
  split; [reflexivity|].
  split; [rewrite <- handle_resume; reflexivity|].
  destruct settled as [[]|error]; cbn; repeat rewrite <- app_assoc;
    repeat split.
Qed.

Lemma runOnce_then_settles_witness :
  exists s s1 s2,
    steps exampleConfig [Connect grantingWallet] (initial true "09:00:00")
    = Some s
    /\ step exampleConfig RunOnce s = Some s1
    /\ step exampleConfig (RunSettles (Resolved tt)) s1 = Some s2
    /\ isRunning s2 = false
    /\ timers s2 = timers s.
Proof.
  destruct (steps exampleConfig [Connect grantingWallet]
              (initial true "09:00:00")) as [s|] eqn:Hsteps;
    [|vm_compute in Hsteps; discriminate Hsteps].
  assert (Hb : boundTo "0xA11CE" (longTradeContract s) (shortTradeContract s))
    by (vm_compute in Hsteps; injection Hsteps as <-; split; reflexivity).
  destruct (runOnce_then_settles exampleConfig s "0xA11CE" (Resolved tt) Hb)
    as (s1 & s2 & H1 & _ & H2 & H3 & _ & _ & H4 & _).
  exists s, s1, s2. repeat split; assumption.
Defined.

(** X16.  When the component is unmounted in a reachable state, its cleanup leaves
    no interval armed and changes nothing else. *)
Theorem unmount_clears_timer cfg s :
  reachable cfg s ->
  unmountCleanup s = (Normal tt, set_timers [] s).
Proof.
  intros Hs. pose proof (reachable_Inv cfg s Hs) as HI.
  unfold unmountCleanup, bind, get, clearInterval, modify, ret.
  destruct (executionInterval s) as [h|] eqn:E.
  - now rewrite (armed_clear s h (inv_armed s HI) E).
  - pose proof (armed_none s (inv_armed s HI) E) as Ht.
    destruct s; cbn in *. subst. reflexivity.
Qed.

Lemma unmount_clears_timer_witness :
  exists s,
    steps exampleConfig [Connect grantingWallet; Start]
      (initial true "09:00:00") = Some s
    /\ timers s <> []
    /\ timers (exec unmountCleanup s) = [].
Proof.
  destruct (steps exampleConfig [Connect grantingWallet; Start]
              (initial true "09:00:00")) as [s|] eqn:Hsteps;
    [|vm_compute in Hsteps; discriminate Hsteps].
  exists s. split; [reflexivity|]. split.
  - vm_compute in Hsteps. injection Hsteps as <-. discriminate.
  - unfold exec.
    rewrite (unmount_clears_timer exampleConfig s
               (steps_reachable exampleConfig _ _ s
                  (reachable_initial exampleConfig true "09:00:00") Hsteps)).
    reflexivity.
Defined.

(** ** What the page lets through *)

Lemma pageStep_step cfg op s s' :
  pageStep cfg op s = Some s' -> step cfg op s = Some s'.
Proof.
  unfold pageStep. now destruct (clickable op s || external op).
Qed.

Lemma pageReachable_reachable cfg s : pageReachable cfg s -> reachable cfg s.
Proof.
  induction 1 as [eth now | s op s' _ IH Hstep].
  - apply reachable_initial.
  - exact (reachable_step cfg s op s' IH (pageStep_step cfg op s s' Hstep)).
Qed.

(** The controls are rendered only while the session is connected. *)
Lemma clickable_connected op s :
  clickable op s = true ->
  op = Start \/ op = Stop \/ op = RunOnce -> isConnected s = true.
Proof.
  unfold clickable, render. intros H Hop.
  destruct (isConnected s); [reflexivity|].
  destruct Hop as [-> | [-> | ->]]; discriminate H.
Qed.

Lemma clickable_stop_running s :
  clickable Stop s = true -> isRunning s = true.
Proof.
  unfold clickable, render.
  destruct (isConnected s), (isRunning s); cbn; congruence.
Qed.

Lemma bound_session s :
  Wiring s -> isConnected s = true ->
  exists signer, boundTo signer (longTradeContract s) (shortTradeContract s).
Proof. intros [H _ _] Hc. now rewrite Hc in H. Qed.

Lemma pageStep_timersBound cfg op s s' :
  reachable cfg s -> timersBound s -> pageStep cfg op s = Some s' ->
  timersBound s'.
Proof.
  intros Hs Hb Hpage. pose proof (reachable_Inv cfg s Hs) as HI.
  pose proof (reachable_Wiring cfg s Hs) as HW.
  unfold pageStep in Hpage.
  destruct (clickable op s || external op) eqn:Hok; [|discriminate].
  unfold timersBound in *.
  destruct op; cbn [step] in Hpage.
  - injection Hpage as <-. rewrite handle_connectWallet.
    destruct (connectWallet_frame cfg w s) as (_ & _ & Ht & _).
    now rewrite Ht.
  - cbn in Hok. unfold clickable in Hok.
    destruct (render s); discriminate Hok.
  - injection Hpage as <-. rewrite (start_timers s (inv_armed s HI)).
    rewrite orb_false_r in Hok.
    destruct (bound_session s HW
                (clickable_connected Start s Hok (or_introl eq_refl)))
      as (signer & Hl & Hsh).
    intros t [<-|[]]. cbn. rewrite Hl, Hsh. split; discriminate.
  - injection Hpage as <-. rewrite handle_stop. unfold exec.
    destruct (executionInterval s) as [h|] eqn:E.
    + rewrite (stop_timer s h E). cbn. intros t Ht.
      apply Hb. now apply In_filter_keep in Ht.
    + now rewrite (stop_no_timer s E).
  - injection Hpage as <-. rewrite handle_runOnce, runOnce_exec.
    match goal with
    | |- forall t, In t (timers (exec (executeContracts ?l ?sh) ?s0)) -> _ =>
        destruct (executeContracts_session l sh s0) as (_ & _ & _ & Ht)
    end.
    rewrite Ht. exact Hb.
  - destruct (findTimer id s) as [t|]; [|discriminate].
    injection Hpage as <-. rewrite handle_executeContracts.
    destruct (executeContracts_session (seenLong t) (seenShort t) s)
      as (_ & _ & _ & Ht).
    now rewrite Ht.
  - destruct (pendingRuns s); [discriminate|]. injection Hpage as <-.
    rewrite handle_resume.
    destruct (resume_effect settled s) as (_ & _ & _ & _ & Ht & _).
    now rewrite Ht.
  - destruct (listening s); [|discriminate]. injection Hpage as <-.
    rewrite handle_accountsChanged. now destruct accounts.
  - destruct (listening s); [|discriminate]. injection Hpage as <-.
    cbn. tauto.
  - injection Hpage as <-. exact Hb.
Qed.

Lemma pageReachable_timersBound cfg s : pageReachable cfg s -> timersBound s.
Proof.
  induction 1 as [eth now | s op s' Hs IH Hstep].
  - intros t [].
  - exact (pageStep_timersBound cfg op s s'
             (pageReachable_reachable cfg s Hs) IH Hstep).
Qed.

(** X17.  Through the page the guard of [executeContracts] never triggers: every
    click on Start or Run Once and every tick of an interval finds both
    bindings, makes the two contract calls and suspends a run. *)
Theorem page_dispatch_always_runs cfg op s s' :
  pageReachable cfg s ->
  pageStep cfg op s = Some s' ->
  op = Start \/ op = RunOnce \/ (exists id, op = TimerFires id) ->
  exists signer,
    contractCalls s' = (contractCalls s ++ callsFor signer)%list
    /\ pendingRuns s' = S (pendingRuns s)
    /\ isRunning s' = true.
Proof.
  intros Hpg Hpage Hop.
  pose proof (pageReachable_reachable cfg s Hpg) as Hs.
  pose proof (reachable_Wiring cfg s Hs) as HW.
  pose proof (pageReachable_timersBound cfg s Hpg) as Hb.
  assert (Hrun : forall long short s0,
             wired long short -> long <> None ->
             exists signer,
               contractCalls (exec (executeContracts long short) s0)
               = (contractCalls s0 ++ callsFor signer)%list
               /\ pendingRuns (exec (executeContracts long short) s0)
                  = S (pendingRuns s0)
               /\ isRunning (exec (executeContracts long short) s0) = true).
  { intros long short s0 Hw Hl.
    destruct (executeContracts_calls long short s0 Hw)
      as [(Hnone & _)|(signer & _ & H1 & H2 & H3)]; [contradiction|].
    exists signer. repeat split; assumption. }
  unfold pageStep in Hpage.
  destruct (clickable op s || external op) eqn:Hok; [|discriminate].
  destruct Hop as [-> | [-> | (id & ->)]]; cbn [step] in Hpage.
  - injection Hpage as <-.
    destruct (start_frame s) as (_ & _ & Hr & Hp & Hc & _).
    rewrite Hr, Hp, Hc. rewrite orb_false_r in Hok.
    destruct (bound_session s HW
                (clickable_connected Start s Hok (or_introl eq_refl)))
      as (signer & Hl & Hsh).
    apply Hrun; [now apply wired_session | rewrite Hl; discriminate].
  - injection Hpage as <-. rewrite handle_runOnce, runOnce_exec.
    rewrite orb_false_r in Hok.
    destruct (bound_session s HW
                (clickable_connected RunOnce s Hok
                   (or_intror (or_intror eq_refl))))
      as (signer & Hl & Hsh).
    match goal with
    | |- context [exec (executeContracts ?l ?sh) ?s0] =>
        destruct (Hrun l sh s0) as (sg & H1 & H2 & H3)
    end; [now apply wired_session | rewrite Hl; discriminate|].
    exists sg. repeat split; assumption.
  - destruct (findTimer id s) as [t|] eqn:E; [|discriminate].
    injection Hpage as <-. rewrite handle_executeContracts.
    pose proof (findTimer_In id s t E) as Hin.
    apply Hrun; [exact (wiring_timers s HW t Hin) | apply (Hb t Hin)].
Qed.

Lemma page_dispatch_always_runs_witness :
  exists s s' signer,
    steps exampleConfig [Connect grantingWallet] (initial true "09:00:00")
    = Some s
    /\ pageStep exampleConfig Start s = Some s'
    /\ contractCalls s' = (contractCalls s ++ callsFor signer)%list.
Proof.
  destruct (steps exampleConfig [Connect grantingWallet]
              (initial true "09:00:00")) as [s|] eqn:Hsteps;
    [|vm_compute in Hsteps; discriminate Hsteps].
  assert (Hpg : pageReachable exampleConfig s).
  { apply (pageReachable_step exampleConfig (initial true "09:00:00")
             (Connect grantingWallet)); [apply pageReachable_initial|].
    cbn [steps] in Hsteps.
    destruct (step exampleConfig (Connect grantingWallet)
                (initial true "09:00:00")) as [s0|] eqn:E;
      [|discriminate Hsteps].
    injection Hsteps as <-. unfold pageStep. exact E. }
  destruct (pageStep exampleConfig Start s) as [s'|] eqn:Hpage.
  - destruct (page_dispatch_always_runs exampleConfig Start s s' Hpg Hpage
                (or_introl eq_refl)) as (signer & H & _).
    exists s, s', signer. repeat split; assumption.
  - vm_compute in Hsteps. injection Hsteps as <-.
    vm_compute in Hpage. discriminate Hpage.
Defined.

(** X18.  The Stop button can be pressed only while a run is in progress: as soon
    as a run settles the button is disabled, although the interval stays
    armed with its handle. *)
Theorem stop_button_needs_run cfg s :
  reachable cfg s ->
  (clickable Stop s = true -> runInProgress s)
  /\ (forall settled s',
         step cfg (RunSettles settled) s = Some s' ->
         executionInterval s' = executionInterval s
         /\ timers s' = timers s
         /\ clickable Stop s' = false).
Proof.
  intros Hs. split.
  - intros H. apply (inv_running s (reachable_Inv cfg s Hs)).
    now apply clickable_stop_running.
  - intros settled s' Hstep. cbn [step] in Hstep.
    destruct (pendingRuns s); [discriminate|]. injection Hstep as <-.
    rewrite handle_resume.
    destruct (resume_effect settled s) as (_ & Hr & _ & Hi & Ht & _).
    split; [exact Hi|]. split; [exact Ht|].
    unfold clickable, render. rewrite Hr.
    now destruct (isConnected (exec (executeContracts_resume settled) s)).
Qed.

Lemma stop_button_needs_run_witness :
  exists s s',
    steps exampleConfig [Connect grantingWallet; Start]
      (initial true "09:00:00") = Some s
    /\ step exampleConfig (RunSettles (Resolved tt)) s = Some s'
    /\ executionInterval s' = Some 1%positive
    /\ clickable Stop s' = false.
Proof.
  destruct (steps exampleConfig [Connect grantingWallet; Start]
              (initial true "09:00:00")) as [s|] eqn:Hsteps;
    [|vm_compute in Hsteps; discriminate Hsteps].
  assert (Hs : reachable exampleConfig s)
    by exact (steps_reachable exampleConfig _ _ s
                (reachable_initial exampleConfig true "09:00:00") Hsteps).
  destruct (step exampleConfig (RunSettles (Resolved tt)) s) as [s'|] eqn:E.
  - destruct (proj2 (stop_button_needs_run exampleConfig s Hs)
                (Resolved tt) s' E) as (Hi & _ & Hc).
    exists s, s'. split; [reflexivity|]. split; [exact E|].
    split; [|exact Hc]. rewrite Hi.
    vm_compute in Hsteps. injection Hsteps as <-. reflexivity.
  - vm_compute in Hsteps. injection Hsteps as <-. discriminate E.
Defined.

(** X19.  A disconnection does not stop the scheduler.  When the wallet reports an
    empty account list while an interval is armed, the session is
    disconnected and the controls are no longer rendered, but the interval
    stays armed, and its next tick still makes both contract calls on the
    bindings its callback closed over. *)
Theorem disconnect_keeps_interval cfg s t long short :
  reachable cfg s ->
  isConnected s = true ->
  In t (timers s) ->
  seenLong t = Some long ->
  seenShort t = Some short ->
  exists s1 s2,
    step cfg (AccountsChanged []) s = Some s1
    /\ longTradeContract s1 = None
    /\ shortTradeContract s1 = None
    /\ clickable Stop s1 = false
    /\ timers s1 = timers s
    /\ step cfg (TimerFires (timerId t)) s1 = Some s2
    /\ contractCalls s2
       = (contractCalls s ++ [(long, txOptions); (short, txOptions)])%list
    /\ isRunning s2 = true.
Proof.
  intros Hs Hc Hin Hl Hsh. pose proof (reachable_Inv cfg s Hs) as HI.
  pose proof (single_timer s t HI Hin) as Ht.
  assert (Hlisten : listening s = true)
    by (unfold listening; now rewrite Hc, (inv_listening s HI Hc)).
  exists (exec (handleAccountsChanged []) s),
    (exec (executeContracts (Some long) (Some short))
       (exec (handleAccountsChanged []) s)).
  split; [cbn [step]; now rewrite Hlisten, handle_accountsChanged|].
  split; [reflexivity|]. split; [reflexivity|]. split; [reflexivity|].
  split; [reflexivity|]. split.
  - cbn [step]. unfold findTimer.
    change (timers (exec (handleAccountsChanged []) s)) with (timers s).
    rewrite Ht. cbn [find]. rewrite Pos.eqb_refl, Hl, Hsh.
    now rewrite handle_executeContracts.
  - unfold exec at 1 3. rewrite executeContracts_started. split; reflexivity.
Qed.

Lemma disconnect_keeps_interval_witness :
  exists s s1 s2,
    steps exampleConfig [Connect grantingWallet; Start]
      (initial true "09:00:00") = Some s
    /\ step exampleConfig (AccountsChanged []) s = Some s1
    /\ longTradeContract s1 = None
    /\ step exampleConfig (TimerFires 1%positive) s1 = Some s2
    /\ contractCalls s2
       = (callsFor "0xA11CE" ++ callsFor "0xA11CE")%list.
Proof.
  destruct (steps exampleConfig [Connect grantingWallet; Start]
              (initial true "09:00:00")) as [s|] eqn:Hsteps;
    [|vm_compute in Hsteps; discriminate Hsteps].
  assert (Hs : reachable exampleConfig s)
    by exact (steps_reachable exampleConfig _ _ s
                (reachable_initial exampleConfig true "09:00:00") Hsteps).
  assert (Hfacts :
            isConnected s = true
            /\ In {| timerId := 1%positive; delay := 3000;
                     seenLong := Some (longTradeFor "0xA11CE");
                     seenShort := Some (shortTradeFor "0xA11CE") |}
                 (timers s)
            /\ contractCalls s = callsFor "0xA11CE")
    by (vm_compute in Hsteps; injection Hsteps as <-;
        split; [reflexivity | split; [left; reflexivity | reflexivity]]).
  destruct Hfacts as (Hc & Hin & Hcalls).
  destruct (disconnect_keeps_interval exampleConfig s _
              (longTradeFor "0xA11CE") (shortTradeFor "0xA11CE")
              Hs Hc Hin eq_refl eq_refl)
    as (s1 & s2 & H1 & Hl & _ & _ & _ & H2 & H3 & _).
  exists s, s1, s2. split; [reflexivity|].
  split; [exact H1|]. split; [exact Hl|]. split; [exact H2|].
  rewrite H3, Hcalls. reflexivity.
Defined.

(** ** The earlier variant of [connectWallet] *)

Ltac unfold_earlier :=
  unfold earlierConnectWallet, request; unfold_js.

(** X20.  The earlier variant does not look at the account list: on the target
    chain it connects the session whatever list the wallet returns, an empty
    or absent one included, as soon as a signer is obtained; it writes nothing
    to the log. *)
Theorem earlierConnectWallet_ignores_accounts cfg w s accounts signer :
  ethereum s = true ->
  on_eth_chainId w = Resolved (chainId cfg) ->
  on_requestAccounts w = Resolved accounts ->
  on_getSigner w = Resolved signer ->
  earlierConnectWallet cfg w s
  = (Normal tt,
     set_toasts
       (toasts s ++ [(ToastSuccess, "Wallet connected to BSC successfully")])
       (set_isConnected true
          (set_shortTradeContract (Some (shortTradeFor signer))
             (set_longTradeContract (Some (longTradeFor signer))
                (set_walletRequests
                   (walletRequests s
                    ++ [Eth_chainId; Eth_requestAccounts; GetSigner])
                   s))))).
Proof.
  intros He Hc Hacc Hsig. unfold_earlier.
  rewrite He, Hc. cbn. rewrite String.eqb_refl. cbn.
  rewrite Hacc. cbn. rewrite Hsig. cbn.
  repeat rewrite <- app_assoc. reflexivity.
Qed.

Lemma earlierConnectWallet_ignores_accounts_witness :
  isConnected
    (exec (earlierConnectWallet exampleConfig accountlessWallet)
       (initial true "09:00:00")) = true
  /\ isConnected
       (exec (connectWallet exampleConfig accountlessWallet)
          (initial true "09:00:00")) = false.
Proof.
  split; [|reflexivity]. unfold exec.
  rewrite (earlierConnectWallet_ignores_accounts exampleConfig
             accountlessWallet (initial true "09:00:00") (Some []) "0xA11CE"
             eq_refl eq_refl eq_refl eq_refl).
  reflexivity.
Defined.

(** X21.  In the earlier variant a failed request to add the chain reaches the
    [catch] block as the wallet threw it, so the notification is chosen from
    the wallet's own error (code 4001 gives "Please connect to Binance Smart
    Chain"); nothing else changes but the three requests sent. *)
Theorem earlierConnectWallet_add_rejected cfg w s current switchError addError :
  ethereum s = true ->
  on_eth_chainId w = Resolved current ->
  current <> chainId cfg ->
  on_switchEthereumChain w = Rejected switchError ->
  thrownCodeIs 4902 switchError = true ->
  on_addEthereumChain w = Rejected addError ->
  earlierConnectWallet cfg w s
  = (Normal tt,
     set_toasts
       (toasts s ++ [(ToastError, earlierConnectionErrorMessage addError)])
       (set_walletRequests
          (walletRequests s ++
           [Eth_chainId; Wallet_switchEthereumChain (chainId cfg);
            Wallet_addEthereumChain cfg])
          s))
  /\ (thrownCodeIs 4001 addError = true ->
      earlierConnectionErrorMessage addError
      = "Please connect to Binance Smart Chain").
Proof.
  intros He Hc Hne Hsw Hcode Hadd. apply String.eqb_neq in Hne. split.
  - unfold_earlier.
    rewrite He, Hc. cbn. rewrite Hne. cbn. rewrite Hsw. cbn.
    rewrite Hcode. cbn. rewrite Hadd. cbn.
    repeat rewrite <- app_assoc. reflexivity.
  - destruct addError as [err|]; [|discriminate]. cbn. now intros ->.
Qed.

Lemma earlierConnectWallet_add_rejected_witness :
  toasts
    (exec (earlierConnectWallet exampleConfig
             (unknownChainWallet (Rejected (rpcError 4001 "User rejected"))))
       (initial true "09:00:00"))
  = [(ToastError, "Please connect to Binance Smart Chain")]
  /\ toasts
       (exec (connectWallet exampleConfig
                (unknownChainWallet (Rejected (rpcError 4001 "User rejected"))))
          (initial true "09:00:00"))
     = [(ToastError, "Error connecting wallet")].
Proof.
  split; [|reflexivity]. unfold exec.
  rewrite (proj1 (earlierConnectWallet_add_rejected exampleConfig
                    (unknownChainWallet
                       (Rejected (rpcError 4001 "User rejected")))
                    (initial true "09:00:00") "0x1"
                    (rpcError 4902 "Unrecognized chain ID")
                    (rpcError 4001 "User rejected")
                    eq_refl eq_refl ltac:(discriminate) eq_refl eq_refl
                    eq_refl)).
  reflexivity.
Defined.

(** ** Rejected accounts and overlapping runs *)

(** X22.  On the target chain already, a rejected request for accounts ends the
    connection: the session stays as it was, no signer is asked for, and the
    message chosen for the error is logged and shown; for code 4001 it is
    "Connection rejected by user". *)
Theorem connectWallet_accounts_rejected cfg w s error :
  ethereum s = true ->
  on_eth_chainId w = Resolved (chainId cfg) ->
  on_requestAccounts w = Rejected error ->
  connectWallet cfg w s
  = (Normal tt,
     set_isConnecting false
       (set_toasts (toasts s ++ [(ToastError, connectionErrorMessage error)])
          (set_logs
             (logs s ++
              [clock s ++ ": Attempting to connect wallet...";
               clock s ++ ": Current chain ID: " ++ chainId cfg;
               clock s ++ ": Requesting accounts...";
               clock s ++ ": Connection error: "
                 ++ connectionErrorMessage error])
             (set_walletRequests
                (walletRequests s ++ [Eth_chainId; Eth_requestAccounts])
                s))))
  /\ (thrownCodeIs 4001 error = true ->
      connectionErrorMessage error = "Connection rejected by user").
Proof.
  intros He Hc Hacc. split.
  - unfold_connect. rewrite He, Hc. cbn. rewrite String.eqb_refl. cbn.
    rewrite Hacc. cbn. repeat rewrite <- app_assoc. reflexivity.
  - destruct error as [err|]; [|discriminate]. cbn. now intros ->.
Qed.

Lemma connectWallet_accounts_rejected_witness :
  toasts
    (exec (connectWallet exampleConfig
             {| on_eth_chainId := Resolved "0x38";
                on_switchEthereumChain := Resolved tt;
                on_addEthereumChain := Resolved tt;
                on_requestAccounts :=
                  Rejected (rpcError 4001 "User rejected the request.");
                on_getSigner := Resolved "0xA11CE" |})
       (initial true "09:00:00"))
  = [(ToastError, "Connection rejected by user")].
Proof.
  unfold exec.
  rewrite (proj1 (connectWallet_accounts_rejected exampleConfig
                    {| on_eth_chainId := Resolved "0x38";
                       on_switchEthereumChain := Resolved tt;
                       on_addEthereumChain := Resolved tt;
                       on_requestAccounts :=
                         Rejected (rpcError 4001 "User rejected the request.");
                       on_getSigner := Resolved "0xA11CE" |}
                    (initial true "09:00:00")
                    (rpcError 4001 "User rejected the request.")
                    eq_refl eq_refl eq_refl)).
  reflexivity.
Defined.

(** X23.  Ticks are not held back by a run in progress: from a state the page can
    reach with an interval armed, [n] ticks in a row start [n] more runs, all
    in progress together, and make [2 * n] more contract calls. *)
Theorem ticks_overlap cfg n : forall s t,
  pageReachable cfg s ->
  In t (timers s) ->
  exists s',
    steps cfg (repeat (TimerFires (timerId t)) n) s = Some s'
    /\ pageReachable cfg s'
    /\ pendingRuns s' = pendingRuns s + n
    /\ List.length (contractCalls s') = List.length (contractCalls s) + 2 * n.
Proof.
  induction n as [|n IH]; intros s t Hpg Hin.
  - exists s. cbn. repeat split; (assumption || lia).
  - pose proof (pageReachable_reachable cfg s Hpg) as Hs.
    pose proof (single_timer s t (reachable_Inv cfg s Hs) Hin) as Ht.
    assert (Hfind : findTimer (timerId t) s = Some t)
      by (unfold findTimer; rewrite Ht; cbn; now rewrite Pos.eqb_refl).
    assert (Hstep : step cfg (TimerFires (timerId t)) s
                    = Some (exec (executeContracts (seenLong t) (seenShort t))
                              s))
      by (cbn [step]; now rewrite Hfind, handle_executeContracts).
    destruct (executeContracts_calls (seenLong t) (seenShort t) s
                (wiring_timers s (reachable_Wiring cfg s Hs) t Hin))
      as [(Hnone & _)|(signer & _ & Hcalls & _ & Hp)].
    { now destruct (pageReachable_timersBound cfg s Hpg t Hin). }
    destruct (executeContracts_session (seenLong t) (seenShort t) s)
      as (_ & _ & _ & Htimers).
    destruct (IH (exec (executeContracts (seenLong t) (seenShort t)) s) t)
      as (s' & Hsteps & Hpg' & Hp' & Hc').
    + apply (pageReachable_step cfg s (TimerFires (timerId t))); [exact Hpg|].
      unfold pageStep. cbn [external]. now rewrite orb_true_r.
    + now rewrite Htimers.
    + exists s'. cbn [repeat steps]. rewrite Hstep.
      split; [exact Hsteps|]. split; [exact Hpg'|].
      rewrite Hp', Hc', Hp, Hcalls, length_app. cbn. lia.
Qed.

Lemma ticks_overlap_witness :
  exists s s',
    pageStep exampleConfig Start
      (handle (connectWallet exampleConfig grantingWallet)
         (initial true "09:00:00")) = Some s
    /\ steps exampleConfig (repeat (TimerFires 1%positive) 3) s = Some s'
    /\ pendingRuns s' = pendingRuns s + 3.
Proof.
  destruct (pageStep exampleConfig Start
              (handle (connectWallet exampleConfig grantingWallet)
                 (initial true "09:00:00"))) as [s|] eqn:Hstart;
    [|vm_compute in Hstart; discriminate Hstart].
  assert (Hpg : pageReachable exampleConfig s).
  { apply (pageReachable_step exampleConfig _ Start _
             (pageReachable_step exampleConfig _ (Connect grantingWallet) _
                (pageReachable_initial exampleConfig true "09:00:00")
                eq_refl)).
    exact Hstart. }
  assert (Hin : In {| timerId := 1%positive; delay := 3000;
                      seenLong := Some (longTradeFor "0xA11CE");
                      seenShort := Some (shortTradeFor "0xA11CE") |}
                  (timers s))
    by (vm_compute in Hstart; injection Hstart as <-; left; reflexivity).
  destruct (ticks_overlap exampleConfig 3 s _ Hpg Hin)
    as (s' & Hsteps & _ & Hp & _).
  exists s, s'. split; [reflexivity|]. split; [exact Hsteps | exact Hp].
Defined.
